(** * Fashion Commerce API: catalog query construction and checkout pipeline

    A shallow embedding of [main.py] and [schemas.py].  Request handlers are
    functions of the request and of the store handle [db]; a handler that
    raises returns the exception it raises.  Python floats are IEEE binary64
    values, that is Rocq's primitive floats; Python dicts built by the code are
    finite maps, dicts received from a client are association lists; a [str]
    is held as the bytes of its UTF-8 encoding. *)

From Stdlib Require Import ZArith Floats String Ascii List.
From stdpp Require Import base option list gmap strings.

Set Warnings "-inexact-float,-register-all".

Local Open Scope string_scope.
Local Open Scope Z_scope.

(** ** Python values received from a client

    A JSON body decoded by the framework: the values a [Dict[str, Any]] of a
    request can hold.  A dict is kept as the list of its entries; [dict_get]
    reads the first entry of a key, which is the only one a Python dict has. *)

Inductive PyVal : Type :=
| PyNone
| PyBool (b : bool)
| PyInt (z : Z)
| PyFloat (f : float)
| PyStr (s : string)
| PyList (l : list PyVal)
| PyDict (d : list (string * PyVal)).

Abbreviation Dict := (list (string * PyVal)).

(** [d.get(key)] *)
Fixpoint dict_get (d : Dict) (key : string) : option PyVal :=
  match d with
  | [] => None
  | (k, v) :: d' => if String.eqb k key then Some v else dict_get d' key
  end.

(** [d.get(key, default)] *)
Definition dict_get_default (d : Dict) (key : string) (dflt : PyVal) : PyVal :=
  default dflt (dict_get d key).

(** ** Exceptions

    [HTTPException] is the only exception the handlers raise on purpose; the
    others are raised by builtins ([TypeError], [ValueError],
    [OverflowError]), by pydantic ([ValidationError]), by bson ([InvalidId])
    and by the store driver ([StoreError]). *)

Inductive Exc : Type :=
| HTTPException (status_code : Z) (detail : string)
| TypeError
| ValueError
| OverflowError
| ValidationError
| InvalidId
| StoreError
| NotImplementedError.

Abbreviation Result := (sum Exc).

Definition raise {A} (e : Exc) : Result A := inl e.

#[global] Instance result_ret : MRet Result := λ A x, inr x.
#[global] Instance result_bind : MBind Result :=
  λ A B f m, match m with inl e => inl e | inr x => f x end.

(** ** Floats *)

Module Float.

(** The binary64 value nearest to an integer, ties to even. *)
Definition of_Z (z : Z) : float :=
  SF2Prim (binary_normalize prec emax z 0 false).

(** The binary64 value nearest to [n / d] for [0 <= n] and [0 < d], ties to
    even.  The quotient is computed with 64 significant bits or more and a
    sticky bit for the remainder, then rounded once. *)
Definition of_ratio (n d : Z) : float :=
  if n =? 0 then 0%float
  else
    let k := Z.max 0 (64 + Z.log2 d - Z.log2 n) in
    let q := (n * 2 ^ k) / d in
    let sticky := if (n * 2 ^ k) mod d =? 0 then 0 else 1 in
    SF2Prim (binary_normalize prec emax (2 * q + sticky) (- (k + 1)) false).

(** The integer nearest to [n / d] for [0 <= n] and [0 < d], ties to even. *)
Definition round_half_even (n d : Z) : Z :=
  let q := n / d in
  match 2 * (n mod d) ?= d with
  | Lt => q
  | Gt => q + 1
  | Eq => if Z.even q then q else q + 1
  end.

(** The exact value of a finite float as a fraction [(n, d)] of its
    magnitude. *)
Definition magnitude (m : positive) (e : Z) : Z * Z :=
  if 0 <=? e then (Zpos m * 2 ^ e, 1) else (Zpos m, 2 ^ (- e)).

End Float.

(** [float(z)] for an int, and the conversion of the int operand of a mixed
    [float * int]: the nearest float, [OverflowError] beyond the float range. *)
Definition py_float_of_int (z : Z) : Result float :=
  let f := Float.of_Z z in
  if is_infinity f then raise OverflowError else mret f.

(** [int(f)] for a float: truncation towards zero. *)
Definition py_int_of_float (f : float) : Result Z :=
  match Prim2SF f with
  | S754_zero _ => mret 0
  | S754_infinity _ => raise OverflowError
  | S754_nan => raise ValueError
  | S754_finite s m e =>
      let '(n, d) := Float.magnitude m e in
      mret (if s then - (n / d) else n / d)
  end.

(** [round(x, ndigits)] for a float and [0 <= ndigits]: the exact value of
    [x] is rounded to [ndigits] decimal places, ties to even, and the decimal
    result is converted to the nearest float.  Zeros, infinities and NaN round
    to themselves; the sign is kept. *)
Definition py_round (x : float) (ndigits : nat) : float :=
  match Prim2SF x with
  | S754_finite s m e =>
      let '(n, d) := Float.magnitude m e in
      let scale := 10 ^ Z.of_nat ndigits in
      let r := Float.of_ratio (Float.round_half_even (n * scale) d) scale in
      if s then (- r)%float else r
  | _ => x
  end.

(** One step of the compensated sum of floats: the running sum and the
    compensation after the item [x] is added.  The rounding error of the
    addition is recovered from the operand of larger magnitude. *)
Definition compensated_step (acc : float * float) (x : float) : float * float :=
  let '(f, c) := acc in
  let t := (f + x)%float in
  if (abs x <=? abs f)%float
  then (t, (c + ((f - t) + x))%float)
  else (t, (c + ((x - t) + f))%float).

(** The compensated sum at the end of the items: the compensation is added
    to the running sum when it is finite and not zero. *)
Definition compensated_result (acc : float * float) : float :=
  let '(f, c) := acc in
  if negb (is_zero c) && is_finite c then (f + c)%float else f.

(** [sum(xs)] for floats.  The accumulator starts from the int [0], to which
    the first item is added, and the other items are added from left to
    right.  CPython before 3.12 adds them with the float addition alone;
    CPython 3.12 and later carries the compensation of [compensated_step]
    beside the running sum and ends with [compensated_result].
    [compensated] says which of the two the interpreter does.  (The sum of
    no item is the int [0], here the float of that value.) *)
Definition py_sum (compensated : bool) (xs : list float) : float :=
  match xs with
  | [] => 0%float
  | x :: xs' =>
      let first := (0 + x)%float in
      if compensated then
        compensated_result (fold_left compensated_step xs' (first, 0%float))
      else fold_left PrimFloat.add xs' first
  end.

(** [x * n] for a float and an int: the int is converted first. *)
Definition py_float_mul_int (x : float) (n : Z) : Result float :=
  y ← py_float_of_int n; mret (x * y)%float.

(** The integer a float is equal to, when it is finite and has no fractional
    part. *)
Definition float_as_int (f : float) : option Z :=
  match Prim2SF f with
  | S754_zero _ => Some 0
  | S754_finite s m e =>
      let '(n, d) := Float.magnitude m e in
      if n mod d =? 0 then Some (if s then - (n / d) else n / d) else None
  | _ => None
  end.

(** The integers that pydantic takes from a float: those strictly between
    [-2^63] and [2^63]. *)
Definition int64_open (z : Z) : option Z :=
  if (- 2 ^ 63 <? z) && (z <? 2 ^ 63) then Some z else None.

(** ** Schemas ([schemas.py]) *)

Module CartItem.
Record t : Type := mk {
  product_id : string;
  quantity : Z;                               (* Field(..., ge=1) *)
  price : float;                              (* Field(..., ge=0) *)
  title : option string;
  variant : option (list (string * string));
  image : option string
}.
End CartItem.

Module Address.
Record t : Type := mk {
  full_name : string;
  line1 : string;
  line2 : option string;
  city : string;
  state : string;
  postal_code : string;
  country : string;                           (* = "US" *)
  phone : option string
}.
End Address.

Module OrderStatus.
Inductive t : Type := pending | paid | shipped | delivered | cancelled.
End OrderStatus.

Module PaymentMethod.
Inductive t : Type := stripe | cod.

(** Validation of a [Literal["stripe", "cod"]] field. *)
Definition validate (s : string) : option t :=
  if String.eqb s "stripe" then Some stripe
  else if String.eqb s "cod" then Some cod
  else None.
End PaymentMethod.

Module PaymentStatus.
Inductive t : Type := pending | requires_action | paid | failed.
End PaymentStatus.

Module Order.
Record t : Type := mk {
  user_id : option string;
  items : list CartItem.t;
  subtotal : float;                           (* Field(..., ge=0) *)
  shipping : float;                           (* = 0.0 *)
  total : float;                              (* Field(..., ge=0) *)
  status : OrderStatus.t;                     (* = "pending" *)
  payment_method : PaymentMethod.t;
  payment_status : PaymentStatus.t;           (* = "pending" *)
  transaction_id : option string;
  shipping_address : Address.t;
  email : option string
}.
End Order.

Module Role.
Inductive t : Type := user | admin.

(** The text of a role, as the answers carry it. *)
Definition value (r : t) : string :=
  match r with user => "user" | admin => "admin" end.
End Role.

Module User.
Record t : Type := mk {
  name : string;                              (* min_length=2, max_length=80 *)
  email : string;
  password_hash : string;
  role : Role.t;                              (* = "user" *)
  avatar_url : option string;
  is_active : bool                            (* = True *)
}.
End User.

(** ** The document store

    A query is the dict handed to [find]; its values are the four shapes
    [list_products] builds, of which [signup] uses one. *)

Inductive QueryValue : Type :=
| QBool (b : bool)
| QStr (s : string)
| QRegex (ops : gmap string string)
| QRange (ops : gmap string float).

Inductive Entity : Type :=
| ProductDoc (fields : Dict)
| OrderDoc (order : Order.t)
| UserDoc (user : User.t).

(** A stored document: its [_id], printed as [str] prints an [ObjectId], and
    the rest of it. *)
Record Document : Type := { _id : string; body : Entity }.

(** A document as returned to clients, [_id] replaced by [id]. *)
Record PublicDocument : Type := { id : string; public_body : Entity }.

(** The store behind the handle [db]: whether the server answers (when it
    does not, every operation of the driver raises), the collections by name
    in insertion order, and the identifiers the server gives to inserted
    documents.  The handle itself is an [option Database]: [None] when no
    store is configured. *)
Record Database : Type := {
  up : bool;
  collections : gmap string (list Document);
  id_of : nat → string;
  inserted : nat
}.

Definition collection (d : Database) (name : string) : list Document :=
  default [] (collections d !! name).

(** ** Request and response of the checkout ([main.py]) *)

Module CheckoutPayload.
Record t : Type := mk {
  items : list Dict;
  email : option string;
  shipping_address : Dict;
  payment_method : string                     (* stripe or cod *)
}.
End CheckoutPayload.

Module CheckoutResponse.
Record t : Type := mk {
  order_id : string;
  total : float;
  payment : gmap string string
}.
End CheckoutResponse.

(** ** Library routines left open

    What the text-reading routines of the runtime and of the libraries answer
    is not fixed here: [float] and [int] on a [str], pydantic's conversion of
    a [str] to a number, the validation of an [EmailStr] (which answers the
    normalised address), [bson.ObjectId] on a [str] (which answers the
    identifier as [str] prints it), and the store's evaluation of a query on a
    document.  Nor is the version of the interpreter: [compensated_sum] says
    whether its [sum] of floats is the compensated one of CPython 3.12 and
    later.  Nor is the class of the store's handle, which [database.py]
    defines: [database_bool] is what the truth test of a handle that is not
    [None] answers, or the exception that it raises (a [Database] of pymongo
    raises [NotImplementedError]). *)
Record Runtime : Type := {
  compensated_sum : bool;
  database_bool : Result bool;
  float_of_str : string → option float;
  int_of_str : string → option Z;
  pydantic_float_of_str : string → option float;
  pydantic_int_of_str : string → option Z;
  validate_email : string → option string;
  ObjectId_of_str : string → option string;
  matches : gmap string QueryValue → Document → bool
}.

Section Handlers.

Context (rt : Runtime).

(** *** Builtins on client values *)

(** [float(v)] *)
Definition py_float (v : PyVal) : Result float :=
  match v with
  | PyBool b => mret (if b then 1 else 0)%float
  | PyInt z => py_float_of_int z
  | PyFloat f => mret f
  | PyStr s => from_option mret (raise ValueError) (float_of_str rt s)
  | PyNone | PyList _ | PyDict _ => raise TypeError
  end.

(** [int(v)] *)
Definition py_int (v : PyVal) : Result Z :=
  match v with
  | PyBool b => mret (if b then 1 else 0)
  | PyInt z => mret z
  | PyFloat f => py_int_of_float f
  | PyStr s => from_option mret (raise ValueError) (int_of_str rt s)
  | PyNone | PyList _ | PyDict _ => raise TypeError
  end.

(** *** Field validation by pydantic (lax mode) *)

Definition validate_str (v : PyVal) : option string :=
  match v with PyStr s => Some s | _ => None end.

Definition validate_int (v : PyVal) : option Z :=
  match v with
  | PyInt z => Some z
  | PyBool b => Some (if b then 1 else 0)
  | PyFloat f => float_as_int f ≫= int64_open
  | PyStr s => pydantic_int_of_str rt s
  | _ => None
  end.

Definition validate_float (v : PyVal) : option float :=
  match v with
  | PyFloat f => Some f
  | PyInt z => match py_float_of_int z with inr f => Some f | inl _ => None end
  | PyBool b => Some (if b then 1 else 0)%float
  | PyStr s => pydantic_float_of_str rt s
  | _ => None
  end.

(** A required field of a model built from a dict. *)
Definition required {A} (validate : PyVal → option A) (d : Dict) (key : string)
  : option A :=
  dict_get d key ≫= validate.

(** A field [Optional[T] = None]. *)
Definition optional {A} (validate : PyVal → option A) (d : Dict) (key : string)
  : option (option A) :=
  match dict_get d key with
  | None | Some PyNone => Some None
  | Some v => Some <$> validate v
  end.

(** A field with a default value. *)
Definition defaulted {A} (validate : PyVal → option A) (d : Dict) (key : string)
    (dflt : A) : option A :=
  match dict_get d key with
  | None => Some dflt
  | Some v => validate v
  end.

(** [Dict[str, str]] *)
Definition validate_str_dict (v : PyVal) : option (list (string * string)) :=
  match v with
  | PyDict d => mapM (λ kv, pair kv.1 <$> validate_str kv.2) d
  | _ => None
  end.

(** [ge=1] on an int and [ge=0] on a float; a NaN is not [>= 0]. *)
Definition ge_int (bound : Z) (z : Z) : option Z :=
  if bound <=? z then Some z else None.
Definition ge_float (bound : float) (f : float) : option float :=
  if (bound <=? f)%float then Some f else None.

Definition CartItem_validate (d : Dict) : option CartItem.t :=
  product_id ← required validate_str d "product_id";
  quantity ← required validate_int d "quantity" ≫= ge_int 1;
  price ← required validate_float d "price" ≫= ge_float 0;
  title ← optional validate_str d "title";
  variant ← optional validate_str_dict d "variant";
  image ← optional validate_str d "image";
  Some (CartItem.mk product_id quantity price title variant image).

Definition Address_validate (d : Dict) : option Address.t :=
  full_name ← required validate_str d "full_name";
  line1 ← required validate_str d "line1";
  line2 ← optional validate_str d "line2";
  city ← required validate_str d "city";
  state ← required validate_str d "state";
  postal_code ← required validate_str d "postal_code";
  country ← defaulted validate_str d "country" "US";
  phone ← optional validate_str d "phone";
  Some (Address.mk full_name line1 line2 city state postal_code country phone).

(** [Order(user_id=.., items=.., subtotal=.., shipping=.., total=..,
    payment_method=.., shipping_address=.., email=..)]: the fields
    [status], [payment_status] and [transaction_id] are not given and take
    their defaults.  A field that does not validate raises pydantic's
    [ValidationError]. *)
Definition Order_new (user_id : option string) (items : list Dict)
    (subtotal shipping total : float) (payment_method : string)
    (shipping_address : Dict) (email : option string) : Result Order.t :=
  from_option mret (raise ValidationError)
    (items ← mapM CartItem_validate items;
     subtotal ← ge_float 0 subtotal;
     total ← ge_float 0 total;
     payment_method ← PaymentMethod.validate payment_method;
     shipping_address ← Address_validate shipping_address;
     email ← match email with
             | None => Some None
             | Some e => Some <$> validate_email rt e
             end;
     Some (Order.mk user_id items subtotal shipping total
             OrderStatus.pending payment_method PaymentStatus.pending
             None shipping_address email)).

(** *** The store *)

(** [bson.ObjectId(s)] *)
Definition ObjectId (s : string) : Result string :=
  from_option mret (raise InvalidId) (ObjectId_of_str rt s).

(** [db.<name>.find_one({"_id": oid})] *)
Definition find_one (d : Database) (name : string) (oid : string)
  : Result (option Document) :=
  if up d
  then mret (List.find (λ doc, String.eqb (_id doc) oid) (collection d name))
  else raise StoreError.

(** [list(db.<name>.find(query).limit(n))] *)
Definition find (d : Database) (name : string)
    (query : gmap string QueryValue) (n : nat) : Result (list Document) :=
  if up d
  then mret (take n (List.filter (matches rt query) (collection d name)))
  else raise StoreError.

(** Modelled from the spec: [create_document] is defined in [database.py],
    which is not among the sources.  The spec gives the store the primitive
    [insert(collection, entity) -> internalId], has the checkout answer the
    public identifier of the persisted order, and makes a storage failure
    during persist fatal to the request.  The entity is appended to the
    named collection under the identifier the server gives it; without a
    store, or when the server does not answer, nothing is written. *)
Definition create_document (collection_name : string) (data : Entity)
    (db : option Database) : Result string * option Database :=
  match db with
  | Some d =>
      if up d then
        let oid := id_of d (inserted d) in
        let doc := {| _id := oid; body := data |} in
        (mret oid,
         Some {| up := up d;
                 collections :=
                   <[collection_name := (collection d collection_name ++ [doc])%list]>
                     (collections d);
                 id_of := id_of d;
                 inserted := S (inserted d) |})
      else (raise StoreError, db)
  | None => (raise StoreError, db)
  end.

(** *** Utility helpers *)

(** [to_public(doc)] for a stored document: [_id] is popped and its [str]
    is stored under [id].  The guard [if not doc] is for the absent document,
    which the callers here exclude before the call. *)
Definition to_public (doc : Document) : PublicDocument :=
  {| id := _id doc; public_body := body doc |}.

(** *** Catalog *)

(** [if s:] for an optional [str]: [None] and the empty string are false. *)
Definition truthy (s : option string) : option string :=
  match s with
  | Some (String a s') => Some (String a s')
  | _ => None
  end.

(** The dict [query] that [list_products] hands to [find]. *)
Definition products_query (q category size color : option string)
    (min_price max_price : option float) : gmap string QueryValue :=
  let query : gmap string QueryValue := {[ "is_active" := QBool true ]} in
  let query :=
    match truthy q with
    | Some q => <["title" := QRegex {[ "$regex" := q; "$options" := "i" ]}]> query
    | None => query
    end in
  let query :=
    match truthy category with
    | Some category => <["category" := QStr category]> query
    | None => query
    end in
  let price_filter : gmap string float := ∅ in
  let price_filter :=
    match min_price with
    | Some min_price => <["$gte" := min_price]> price_filter
    | None => price_filter
    end in
  let price_filter :=
    match max_price with
    | Some max_price => <["$lte" := max_price]> price_filter
    | None => price_filter
    end in
  let query :=
    if Nat.eqb (base.size price_filter) 0 then query
    else <["price" := QRange price_filter]> query in
  let query :=
    match truthy size with
    | Some size => <["variants.size" := QStr size]> query
    | None => query
    end in
  let query :=
    match truthy color with
    | Some color => <["variants.color" := QStr color]> query
    | None => query
    end in
  query.

Definition list_products (q category size color : option string)
    (min_price max_price : option float) (db : option Database)
  : Result (list PublicDocument) :=
  match db with
  | None => mret []
  | Some d =>
      docs ← find d "product"
               (products_query q category size color min_price max_price) 60;
      mret (List.map to_public docs)
  end.

Definition get_product (product_id : string) (db : option Database)
  : Result PublicDocument :=
  match db with
  | None => raise (HTTPException 404 "Not found")
  | Some d =>
      match oid ← ObjectId product_id; find_one d "product" oid with
      | inl _ => raise (HTTPException 400 "Invalid id")
      | inr None => raise (HTTPException 404 "Not found")
      | inr (Some doc) => mret (to_public doc)
      end
  end.

(** *** Checkout / Orders *)

(** [float(i.get("price", 0)) * int(i.get("quantity", 1))] *)
Definition line_total (i : Dict) : Result float :=
  price ← py_float (dict_get_default i "price" (PyInt 0));
  quantity ← py_int (dict_get_default i "quantity" (PyInt 1));
  py_float_mul_int price quantity.

(** The amounts the checkout computes: subtotal, shipping and total. *)
Definition checkout_pricing (items : list Dict)
  : Result (float * float * float) :=
  lines ← mapM line_total items;
  let subtotal := py_sum (compensated_sum rt) lines in
  let shipping := 0%float in
  let total := py_round (subtotal + shipping) 2 in
  mret (subtotal, shipping, total).

(** The order the checkout assembles, with the total it computed. *)
Definition checkout_order (payload : CheckoutPayload.t)
  : Result (float * Order.t) :=
  '(subtotal, shipping, total) ← checkout_pricing
                                   (CheckoutPayload.items payload);
  order ← Order_new None (CheckoutPayload.items payload) subtotal shipping
             total (CheckoutPayload.payment_method payload)
             (CheckoutPayload.shipping_address payload)
             (CheckoutPayload.email payload);
  mret (total, order).

(** The dict [payment] of the response. *)
Definition payment_stub (payment_method order_id : string)
  : gmap string string :=
  let payment : gmap string string := {[ "method" := payment_method ]} in
  if String.eqb payment_method "stripe" then
    let payment := <["status" := "requires_action"]> payment in
    <["client_secret" := "cs_test_" +:+ substring 0 8 order_id]> payment
  else
    <["status" := "pending"]> payment.

Definition checkout (payload : CheckoutPayload.t) (db : option Database)
  : Result CheckoutResponse.t * option Database :=
  match CheckoutPayload.items payload with
  | [] => (raise (HTTPException 400 "No items"), db)
  | _ :: _ =>
      match checkout_order payload with
      | inl e => (inl e, db)
      | inr (total, order) =>
          match create_document "order" (OrderDoc order) db with
          | (inl e, db') => (inl e, db')
          | (inr order_id, db') =>
              let payment :=
                payment_stub (CheckoutPayload.payment_method payload) order_id in
              (mret (CheckoutResponse.mk order_id total payment), db')
          end
      end
  end.

End Handlers.

(** ** Catalog and user schemas ([schemas.py]), admin and auth payloads
    ([main.py]) *)

Module ProductVariant.
Record t : Type := mk {
  size : option string;
  color : option string;
  stock : Z;                                  (* = 0 *)
  sku : option string
}.
End ProductVariant.

Module Product.
Record t : Type := mk {
  title : string;
  description : option string;
  price : float;                              (* Field(..., ge=0) *)
  category : string;
  images : list string;                       (* = [] *)
  variants : list ProductVariant.t;           (* = [] *)
  tags : list string;                         (* = [] *)
  rating : float;                             (* = 0.0 *)
  rating_count : Z;                           (* = 0 *)
  is_active : bool                            (* = True *)
}.
End Product.

(** The body of [POST /admin/products], as the framework hands it over. *)
Module ProductIn.
Record t : Type := mk {
  title : string;
  description : option string;
  price : float;
  category : string;
  images : option (list string);
  variants : option (list Dict);
  tags : option (list string)
}.
End ProductIn.

Module AuthPayload.
Record t : Type := mk {
  name : option string;
  email : string;
  password : string
}.
End AuthPayload.

(** [s.split("@")[0]]: the characters before the first ["@"], all of them
    when there is none. *)
Fixpoint before_at (s : string) : string :=
  match s with
  | EmptyString => EmptyString
  | String c s' =>
      if Ascii.eqb c "@" then EmptyString else String c (before_at s')
  end.

(** [len(s)]: the number of characters of a [str], that is, of the bytes of
    its encoding that do not continue a character. *)
Fixpoint py_len (s : string) : nat :=
  match s with
  | EmptyString => 0%nat
  | String c s' =>
      let n := nat_of_ascii c in
      if ((128 <=? n) && (n <? 192))%nat then py_len s' else S (py_len s')
  end.

(** [model_dump()] of a product: the dict that is stored. *)
Definition dump_optional_str (s : option string) : PyVal :=
  from_option PyStr PyNone s.

Definition ProductVariant_dump (v : ProductVariant.t) : PyVal :=
  PyDict [("size", dump_optional_str (ProductVariant.size v));
          ("color", dump_optional_str (ProductVariant.color v));
          ("stock", PyInt (ProductVariant.stock v));
          ("sku", dump_optional_str (ProductVariant.sku v))].

Definition Product_dump (p : Product.t) : Dict :=
  [("title", PyStr (Product.title p));
   ("description", dump_optional_str (Product.description p));
   ("price", PyFloat (Product.price p));
   ("category", PyStr (Product.category p));
   ("images", PyList (PyStr <$> Product.images p));
   ("variants", PyList (ProductVariant_dump <$> Product.variants p));
   ("tags", PyList (PyStr <$> Product.tags p));
   ("rating", PyFloat (Product.rating p));
   ("rating_count", PyInt (Product.rating_count p));
   ("is_active", PyBool (Product.is_active p))].

(** The documents of a collection without the first one of an identifier. *)
Fixpoint remove_first (oid : string) (docs : list Document) : list Document :=
  match docs with
  | [] => []
  | doc :: docs' =>
      if String.eqb (_id doc) oid then docs' else doc :: remove_first oid docs'
  end.

(** The documents of a collection with the body of the first one of an
    identifier replaced. *)
Fixpoint replace_first (oid : string) (new_body : Entity)
    (docs : list Document) : list Document :=
  match docs with
  | [] => []
  | doc :: docs' =>
      if String.eqb (_id doc) oid
      then {| _id := _id doc; body := new_body |} :: docs'
      else doc :: replace_first oid new_body docs'
  end.

Definition with_collection (d : Database) (name : string)
    (docs : list Document) : Database :=
  {| up := up d;
     collections := <[name := docs]> (collections d);
     id_of := id_of d;
     inserted := inserted d |}.

Section Admin.

Context (rt : Runtime).

(** The server's [$set]: the document after the fields of the payload are
    set in it, or the error with which the server refuses the update.  How
    the server merges the fields is not fixed here. *)
Context (set_fields : Entity → Dict → Result Entity).

(** *** Schemas *)

Definition ProductVariant_validate (v : PyVal) : option ProductVariant.t :=
  match v with
  | PyDict d =>
      size ← optional validate_str d "size";
      color ← optional validate_str d "color";
      stock ← defaulted (validate_int rt) d "stock" 0;
      sku ← optional validate_str d "sku";
      Some (ProductVariant.mk size color stock sku)
  | _ => None
  end.

(** [Product] built from the keywords of [payload.model_dump()]: the dump
    holds every field of the payload, an unset one as [None], and [None] is
    no list.  The fields [rating], [rating_count] and [is_active] take their
    defaults. *)
Definition Product_new (payload : ProductIn.t) : Result Product.t :=
  from_option mret (raise ValidationError)
    (price ← ge_float 0 (ProductIn.price payload);
     images ← ProductIn.images payload;
     variants ← ProductIn.variants payload
                ≫= mapM (λ v, ProductVariant_validate (PyDict v));
     tags ← ProductIn.tags payload;
     Some (Product.mk (ProductIn.title payload)
             (ProductIn.description payload) price
             (ProductIn.category payload) images variants tags 0%float 0
             true)).

(** [User(name=.., email=.., password_hash=..)]; [min_length] and
    [max_length] bound the number of characters of the name. *)
Definition User_new (name email password_hash : string) : Result User.t :=
  from_option mret (raise ValidationError)
    (name ← (if (2 <=? py_len name)%nat && (py_len name <=? 80)%nat
             then Some name else None);
     email ← validate_email rt email;
     Some (User.mk name email password_hash Role.user None true)).

(** *** The store *)

(** [db.<name>.delete_one({"_id": oid})], with [deleted_count] *)
Definition delete_one (d : Database) (name : string) (oid : string)
  : Result (nat * Database) :=
  if up d then
    match List.find (λ doc, String.eqb (_id doc) oid) (collection d name) with
    | None => mret (0%nat, d)
    | Some _ =>
        mret (1%nat,
              with_collection d name (remove_first oid (collection d name)))
    end
  else raise StoreError.

(** [db.<name>.update_one({"_id": oid}, {"$set": payload})], with
    [matched_count] *)
Definition update_one (d : Database) (name : string) (oid : string)
    (payload : Dict) : Result (nat * Database) :=
  if up d then
    match List.find (λ doc, String.eqb (_id doc) oid) (collection d name) with
    | None => mret (0%nat, d)
    | Some doc =>
        new_body ← set_fields (body doc) payload;
        mret (1%nat,
              with_collection d name
                (replace_first oid new_body (collection d name)))
    end
  else raise StoreError.

(** [list(db.<name>.find(query))] *)
Definition find_all (d : Database) (name : string)
    (query : gmap string QueryValue) : Result (list Document) :=
  if up d
  then mret (List.filter (matches rt query) (collection d name))
  else raise StoreError.

(** *** Auth *)

(** [list(db.user.find({"email": payload.email})) if db else []]: the
    handle [None] is false, and what the truth test of another handle
    answers is the runtime's. *)
Definition existing_users (payload : AuthPayload.t) (db : option Database)
  : Result (list Document) :=
  match db with
  | None => mret []
  | Some d =>
      connected ← database_bool rt;
      if connected : bool
      then find_all d "user" {[ "email" := QStr (AuthPayload.email payload) ]}
      else mret []
  end.

(** [User(name=payload.name or payload.email.split("@")[0],
    email=payload.email, password_hash=payload.password)] *)
Definition signup_user (payload : AuthPayload.t) : Result User.t :=
  User_new
    (default (before_at (AuthPayload.email payload))
       (truthy (AuthPayload.name payload)))
    (AuthPayload.email payload) (AuthPayload.password payload).

Definition signup (payload : AuthPayload.t) (db : option Database)
  : Result (gmap string string) * option Database :=
  match existing_users payload db with
  | inl e => (inl e, db)
  | inr (_ :: _) =>
      (raise (HTTPException 400 "Email already registered"), db)
  | inr [] =>
      match signup_user payload with
      | inl e => (inl e, db)
      | inr user =>
          match create_document "user" (UserDoc user) db with
          | (inl e, db') => (inl e, db')
          | (inr user_id, db') =>
              (mret {[ "id" := user_id; "email" := User.email user;
                       "name" := User.name user;
                       "role" := Role.value (User.role user) ]}, db')
          end
      end
  end.

(** *** Admin *)

Definition admin_create_product (payload : ProductIn.t) (db : option Database)
  : Result (gmap string string) * option Database :=
  match Product_new payload with
  | inl e => (inl e, db)
  | inr product =>
      match create_document "product" (ProductDoc (Product_dump product)) db with
      | (inl e, db') => (inl e, db')
      | (inr new_id, db') => (mret {[ "id" := new_id ]}, db')
      end
  end.

Definition admin_update_product (product_id : string) (payload : Dict)
    (db : option Database) : Result (gmap string bool) * option Database :=
  match db with
  | None => (raise (HTTPException 500 "DB not ready"), db)
  | Some d =>
      match oid ← ObjectId rt product_id; update_one d "product" oid payload with
      | inl _ => (raise (HTTPException 400 "Invalid id"), db)
      | inr (matched_count, d') =>
          if Nat.eqb matched_count 0
          then (raise (HTTPException 404 "Not found"), Some d')
          else (mret {[ "updated" := true ]}, Some d')
      end
  end.

Definition admin_delete_product (product_id : string) (db : option Database)
  : Result (gmap string bool) * option Database :=
  match db with
  | None => (raise (HTTPException 500 "DB not ready"), db)
  | Some d =>
      match oid ← ObjectId rt product_id; delete_one d "product" oid with
      | inl _ => (raise (HTTPException 400 "Invalid id"), db)
      | inr (deleted_count, d') =>
          if Nat.eqb deleted_count 0
          then (raise (HTTPException 404 "Not found"), Some d')
          else (mret {[ "deleted" := true ]}, Some d')
      end
  end.

End Admin.

(** ** Sample data *)

Definition is_hex_digit (c : ascii) : bool :=
  let n := nat_of_ascii c in
  ((48 <=? n) && (n <=? 57) || (97 <=? n) && (n <=? 102)
   || (65 <=? n) && (n <=? 70))%nat.

(** A runtime for the examples: an interpreter whose [sum] is compensated,
    a handle of the store that tests true, no text is read as a number, an
    address is taken as it is written, an identifier is 24 hexadecimal
    digits, and every document matches every query. *)
Definition sample_runtime : Runtime := {|
  compensated_sum := true;
  database_bool := inr true;
  float_of_str := λ _, None;
  int_of_str := λ _, None;
  pydantic_float_of_str := λ _, None;
  pydantic_int_of_str := λ _, None;
  validate_email := Some;
  ObjectId_of_str := λ s,
    if Nat.eqb (String.length s) 24
       && forallb is_hex_digit (list_ascii_of_string s)
    then Some s else None;
  matches := λ _ _, true
|}.

(** The same runtime with an interpreter before 3.12. *)
Definition plain_sum_runtime : Runtime := {|
  compensated_sum := false;
  database_bool := database_bool sample_runtime;
  float_of_str := float_of_str sample_runtime;
  int_of_str := int_of_str sample_runtime;
  pydantic_float_of_str := pydantic_float_of_str sample_runtime;
  pydantic_int_of_str := pydantic_int_of_str sample_runtime;
  validate_email := validate_email sample_runtime;
  ObjectId_of_str := ObjectId_of_str sample_runtime;
  matches := matches sample_runtime
|}.

(** The same runtime with the handle of pymongo, which refuses the truth
    test. *)
Definition pymongo_runtime : Runtime := {|
  compensated_sum := compensated_sum sample_runtime;
  database_bool := raise NotImplementedError;
  float_of_str := float_of_str sample_runtime;
  int_of_str := int_of_str sample_runtime;
  pydantic_float_of_str := pydantic_float_of_str sample_runtime;
  pydantic_int_of_str := pydantic_int_of_str sample_runtime;
  validate_email := validate_email sample_runtime;
  ObjectId_of_str := ObjectId_of_str sample_runtime;
  matches := matches sample_runtime
|}.

(** A store that answers and holds nothing yet. *)
Definition sample_db : Database := {|
  up := true;
  collections := ∅;
  id_of := λ n,
    match n with
    | O => "65f1c0ffee0123456789abc0"
    | _ => "65f1c0ffee0123456789abc1"
    end;
  inserted := 0
|}.

Definition sample_address : Dict :=
  [("full_name", PyStr "Ada Lovelace"); ("line1", PyStr "12 St James Square");
   ("city", PyStr "London"); ("state", PyStr "LDN");
   ("postal_code", PyStr "SW1Y 4JH"); ("country", PyStr "GB")].

Definition sample_item (product_id : string) (price : float) (quantity : Z)
  : Dict :=
  [("product_id", PyStr product_id); ("quantity", PyInt quantity);
   ("price", PyFloat price)].

(** The cart of the specification's example: 2 x 19.99 and 3 x 5.00. *)
Definition sample_cart : list Dict :=
  [sample_item "p1" 19.99 2; sample_item "p2" 5.00 3].

Definition sample_payload (cart : list Dict) (payment_method : string)
  : CheckoutPayload.t :=
  CheckoutPayload.mk cart None sample_address payment_method.

(** What the sample checkouts are expected to store: the validated address,
    an order with the default statuses, and the store after the insertion of
    that order. *)
Definition sample_address_record : Address.t :=
  Address.mk "Ada Lovelace" "12 St James Square" None "London" "LDN"
    "SW1Y 4JH" "GB" None.

Definition sample_cart_items : list CartItem.t :=
  [CartItem.mk "p1" 2 19.99 None None None;
   CartItem.mk "p2" 3 5.00 None None None].

Definition sample_order (items : list CartItem.t) (subtotal total : float)
    (payment_method : PaymentMethod.t) : Order.t :=
  Order.mk None items subtotal 0 total OrderStatus.pending payment_method
    PaymentStatus.pending None sample_address_record None.

Definition sample_order_id : string := "65f1c0ffee0123456789abc0".

Definition sample_db_with (order : Order.t) : Database := {|
  up := true;
  collections :=
    {[ "order" := [{| _id := sample_order_id; body := OrderDoc order |}] ]};
  id_of := id_of sample_db;
  inserted := 1
|}.

(** A store that holds one product. *)
Definition catalog_db : Database := {|
  up := true;
  collections :=
    {[ "product" :=
         [{| _id := "65f1c0ffee0123456789aaaa";
             body := ProductDoc [("title", PyStr "Linen shirt");
                                 ("price", PyFloat 39.5);
                                 ("is_active", PyBool true)] |}] ]};
  id_of := id_of sample_db;
  inserted := 1
|}.

(** ** More sample data *)

(** [d[key] = value] on a dict kept as the list of its entries. *)
Fixpoint dict_set (d : Dict) (key : string) (value : PyVal) : Dict :=
  match d with
  | [] => [(key, value)]
  | (k, v) :: d' =>
      if String.eqb k key then (k, value) :: d'
      else (k, v) :: dict_set d' key value
  end.

(** A server for the examples, whose [$set] sets the fields of the payload
    one after the other in a product document. *)
Definition sample_set_fields (body : Entity) (payload : Dict) : Result Entity :=
  match body with
  | ProductDoc fields =>
      mret (ProductDoc (fold_left (λ d kv, dict_set d kv.1 kv.2) payload fields))
  | OrderDoc _ | UserDoc _ => raise StoreError
  end.

(** Product payloads of the examples: a complete one, one that leaves
    [variants] unset, and one with a negative price. *)
Definition sample_product_in : ProductIn.t :=
  ProductIn.mk "Linen shirt" (Some "A light shirt") 39.5 "shirts"
    (Some ["shirt.jpg"])
    (Some [[("size", PyStr "M"); ("color", PyStr "white");
            ("stock", PyInt 4)]])
    (Some ["summer"]).

Definition unset_variants_product_in : ProductIn.t :=
  ProductIn.mk "Linen shirt" None 39.5 "shirts" (Some ["shirt.jpg"]) None
    (Some ["summer"]).

Definition negative_price_product_in : ProductIn.t :=
  ProductIn.mk "Linen shirt" None (-1) "shirts" (Some []) (Some []) (Some []).

(** The product that the complete payload makes, and the store after its
    creation in the empty store. *)
Definition sample_product : Product.t :=
  Product.mk "Linen shirt" (Some "A light shirt") 39.5 "shirts" ["shirt.jpg"]
    [ProductVariant.mk (Some "M") (Some "white") 4 None] ["summer"] 0 0 true.

Definition sample_created_db : Database := {|
  up := true;
  collections :=
    {[ "product" := [{| _id := sample_order_id;
                        body := ProductDoc (Product_dump sample_product) |}] ]};
  id_of := id_of sample_db;
  inserted := 1
|}.

(** The product of [catalog_db], and that store without it. *)
Definition catalog_product_id : string := "65f1c0ffee0123456789aaaa".

Definition catalog_product : Document :=
  {| _id := catalog_product_id;
     body := ProductDoc [("title", PyStr "Linen shirt");
                         ("price", PyFloat 39.5);
                         ("is_active", PyBool true)] |}.

Definition emptied_catalog_db : Database :=
  with_collection catalog_db "product" [].

(** An update that sets a negative price, and the store after it. *)
Definition negative_price_update : Dict := [("price", PyFloat (-5))].

Definition repriced_body : Entity :=
  ProductDoc [("title", PyStr "Linen shirt"); ("price", PyFloat (-5));
              ("is_active", PyBool true)].

Definition repriced_catalog_db : Database :=
  with_collection catalog_db "product"
    [{| _id := catalog_product_id; body := repriced_body |}].

(** An address without a city. *)
Definition incomplete_address : Dict :=
  [("full_name", PyStr "Ada Lovelace"); ("line1", PyStr "12 St James Square");
   ("state", PyStr "LDN"); ("postal_code", PyStr "SW1Y 4JH")].

(** Signups of the examples: one with a name, one whose name has 41
    characters of two bytes each, and one without a name whose address has a
    single character, of two bytes, before the ["@"]. *)
Definition named_signup : AuthPayload.t :=
  AuthPayload.mk (Some "Ada") "ada@example.com" "secret".
Definition accented_name : string :=
  "ééééééééééééééééééééééééééééééééééééééééé".
Definition accented_signup : AuthPayload.t :=
  AuthPayload.mk (Some accented_name) "zoe@example.com" "secret".
Definition short_signup : AuthPayload.t :=
  AuthPayload.mk None "é@example.com" "secret".

(** What the sample signups are expected to store: the user, and the store
    after the insertion of that user. *)
Definition accented_user : User.t :=
  User.mk accented_name "zoe@example.com" "secret" Role.user None true.
Definition sample_user_id : string := "65f1c0ffee0123456789abc0".
Definition sample_db_with_user (user : User.t) : Database := {|
  up := true;
  collections :=
    {[ "user" := [{| _id := sample_user_id; body := UserDoc user |}] ]};
  id_of := id_of sample_db;
  inserted := 1
|}.

(** ** Vocabulary of the statements *)

(** A string parameter was supplied with at least one character. *)
Definition non_empty (s : option string) : Prop :=
  ∃ x, s = Some x ∧ x ≠ EmptyString.

(** The bound that the price clause of a query carries under an operator
    ([$gte] is the store's [>=], [$lte] its [<=]). *)
Definition price_bound (query : gmap string QueryValue) (op : string)
  : option float :=
  match query !! "price" with
  | Some (QRange ops) => ops !! op
  | _ => None
  end.

(** The case-insensitive match of the title against a term. *)
Definition title_clause (q : string) : QueryValue :=
  QRegex {[ "$regex" := q; "$options" := "i" ]}.

(** The quantity and the price of a cart item as the [CartItem] schema reads
    them. *)
Definition item_quantity (rt : Runtime) (i : Dict) : option Z :=
  required (validate_int rt) i "quantity".
Definition item_price (rt : Runtime) (i : Dict) : option float :=
  required (validate_float rt) i "price".

(** The invariant of a cart item: its quantity reads as an integer of at
    least 1 and its price as a float of at least 0. *)
Definition item_valid (rt : Runtime) (i : Dict) : Prop :=
  (∃ z, item_quantity rt i = Some z ∧ 1 ≤ z)
  ∧ (∃ p, item_price rt i = Some p ∧ (0 <=? p)%float = true).

(** What the pricing of the checkout reads on an item: the float that
    [float] makes of its price, 0 when it has none, and the int that [int]
    makes of its quantity, 1 when it has none. *)
Definition reads (rt : Runtime) (i : Dict) (line : float * Z) : Prop :=
  py_float rt (dict_get_default i "price" (PyInt 0)) = inr line.1
  ∧ py_int rt (dict_get_default i "quantity" (PyInt 1)) = inr line.2.

(** What the [CartItem] schema reads on an item: its price and its
    quantity, within their bounds. *)
Definition validated (rt : Runtime) (i : Dict) (line : float * Z) : Prop :=
  item_price rt i = Some line.1 ∧ item_quantity rt i = Some line.2
  ∧ (0 <=? line.1)%float = true ∧ 1 ≤ line.2.

(** [r] is [x] rounded to [ndigits] decimal places.  For a finite [x] of
    magnitude [n / d], [r] is the float nearest to [k / 10 ^ ndigits], with
    the sign of [x], where [k] is the integer nearest to
    [n * 10 ^ ndigits / d], the even one when two are equally near.  A zero,
    an infinity and a NaN are rounded to themselves. *)
Definition rounded_to (ndigits : nat) (x r : float) : Prop :=
  match Prim2SF x with
  | S754_finite s m e =>
      let '(n, d) := Float.magnitude m e in
      let scale := 10 ^ Z.of_nat ndigits in
      ∃ k, 0 ≤ k
           ∧ 2 * Z.abs (n * scale - k * d) ≤ d
           ∧ (2 * Z.abs (n * scale - k * d) = d → Z.even k = true)
           ∧ r = if s then (- Float.of_ratio k scale)%float
                 else Float.of_ratio k scale
  | _ => r = x
  end.

(** The exceptions the pricing of a line can raise. *)
Definition pricing_error (e : Exc) : Prop :=
  e = TypeError ∨ e = ValueError ∨ e = OverflowError.

(** A client error: an [HTTPException] with a 4xx status. *)
Definition client_error (e : Exc) : Prop :=
  match e with
  | HTTPException status_code _ => 400 ≤ status_code < 500
  | _ => False
  end.

(** The last document of a collection of a store. *)
Definition last_document (db : option Database) (name : string)
  : option Document :=
  d ← db; last (collection d name).

(** Carts of the examples: one with an item of quantity 0 among valid items,
    one whose price is [null], and one whose subtotal is not a round amount. *)
Definition mixed_cart : list Dict :=
  [sample_item "p1" 19.99 2; sample_item "p2" 5.00 0].
Definition null_price_item : Dict :=
  [("product_id", PyStr "p1"); ("quantity", PyInt 1); ("price", PyNone)].
Definition null_price_cart : list Dict := [null_price_item].
Definition dimes_cart : list Dict := [sample_item "p3" 0.1 3].

(** What the sample checkouts are expected to answer and to store. *)
Definition stripe_response : CheckoutResponse.t :=
  CheckoutResponse.mk sample_order_id 54.98
    {[ "method" := "stripe"; "status" := "requires_action";
       "client_secret" := "cs_test_65f1c0ff" ]}.
Definition stripe_order : Order.t :=
  sample_order sample_cart_items 54.98 54.98 PaymentMethod.stripe.

Definition cod_response : CheckoutResponse.t :=
  CheckoutResponse.mk sample_order_id 54.98
    {[ "method" := "cod"; "status" := "pending" ]}.
Definition cod_order : Order.t :=
  sample_order sample_cart_items 54.98 54.98 PaymentMethod.cod.

Definition dimes_response : CheckoutResponse.t :=
  CheckoutResponse.mk sample_order_id 0.3
    {[ "method" := "cod"; "status" := "pending" ]}.
Definition dimes_order : Order.t :=
  sample_order [CartItem.mk "p3" 3 0.1 None None None]
    0.30000000000000004 0.3 PaymentMethod.cod.

(** A runtime that reads the text ["0.579"] as a number, the interpreter as
    pydantic does. *)
Definition text_runtime : Runtime := {|
  compensated_sum := compensated_sum sample_runtime;
  database_bool := database_bool sample_runtime;
  float_of_str := λ s, if String.eqb s "0.579" then Some 0.579%float else None;
  int_of_str := int_of_str sample_runtime;
  pydantic_float_of_str := λ s,
    if String.eqb s "0.579" then Some 0.579%float else None;
  pydantic_int_of_str := pydantic_int_of_str sample_runtime;
  validate_email := validate_email sample_runtime;
  ObjectId_of_str := ObjectId_of_str sample_runtime;
  matches := matches sample_runtime
|}.

(** Carts of three lines whose subtotal is not a round amount, and which the
    two kinds of interpreter sum differently: 3 x 5, 0.579 and 2 x 1.313,
    with an int price, a price given as text and a float quantity; and
    2 x 1.2, 0.579 and 2 x 1.313. *)
Definition rounding_cart : list Dict :=
  [[("product_id", PyStr "p1"); ("quantity", PyInt 3); ("price", PyInt 5)];
   [("product_id", PyStr "p2"); ("quantity", PyInt 1);
    ("price", PyStr "0.579")];
   [("product_id", PyStr "p3"); ("quantity", PyFloat 2);
    ("price", PyFloat 1.313)]].
Definition three_line_cart : list Dict :=
  [sample_item "p1" 1.2 2; sample_item "p2" 0.579 1; sample_item "p3" 1.313 2].

Definition rounding_response : CheckoutResponse.t :=
  CheckoutResponse.mk sample_order_id 18.2
    {[ "method" := "cod"; "status" := "pending" ]}.
Definition rounding_order : Order.t :=
  sample_order
    [CartItem.mk "p1" 3 5 None None None;
     CartItem.mk "p2" 1 0.579 None None None;
     CartItem.mk "p3" 2 1.313 None None None]
    18.204999999999998 18.2 PaymentMethod.cod.

Definition three_line_items : list CartItem.t :=
  [CartItem.mk "p1" 2 1.2 None None None;
   CartItem.mk "p2" 1 0.579 None None None;
   CartItem.mk "p3" 2 1.313 None None None].
Definition three_line_response : CheckoutResponse.t :=
  CheckoutResponse.mk sample_order_id 5.6
    {[ "method" := "cod"; "status" := "pending" ]}.
Definition three_line_order : Order.t :=
  sample_order three_line_items 5.6049999999999995 5.6 PaymentMethod.cod.
Definition three_line_plain_response : CheckoutResponse.t :=
  CheckoutResponse.mk sample_order_id 5.61
    {[ "method" := "cod"; "status" := "pending" ]}.
Definition three_line_plain_order : Order.t :=
  sample_order three_line_items 5.605 5.61 PaymentMethod.cod.

(** A cart whose quantity is a float beyond the 64-bit integers. *)
Definition oversized_quantity_item : Dict :=
  [("product_id", PyStr "p1"); ("quantity", PyFloat 1e19);
   ("price", PyFloat 19.99)].
Definition oversized_quantity_cart : list Dict := [oversized_quantity_item].

(** A product identifier that is well formed, and one that is not. *)
Definition well_formed_id : string := "65f1c0ffee0123456789abcd".
Definition malformed_id : string := "not-an-object-id".

(** The documents that a store holds in a collection; none without a
    store. *)
Definition stored (db : option Database) (name : string) : list Document :=
  from_option (λ d, collection d name) [] db.

(** An item on whose texts the interpreter and pydantic agree: the number
    that pydantic takes from a price or a quantity given as text is the one
    that [float] or [int] makes of that text. *)
Definition text_agrees (rt : Runtime) (i : Dict) : Prop :=
  (∀ s p, dict_get i "price" = Some (PyStr s) →
          pydantic_float_of_str rt s = Some p → float_of_str rt s = Some p)
  ∧ (∀ s z, dict_get i "quantity" = Some (PyStr s) →
            pydantic_int_of_str rt s = Some z → int_of_str rt s = Some z).

(** The exceptions that the steps of the checkout before the write raise. *)
Definition checkout_error (e : Exc) : Prop :=
  e = HTTPException 400 "No items" ∨ pricing_error e ∨ e = ValidationError.

(** The fields an address must carry. *)
Definition address_required : list string :=
  ["full_name"; "line1"; "city"; "state"; "postal_code"].

(** * The builtins on sample values *)

(** [round] rounds the exact binary value to the nearest decimal, an exact tie
    to the even one: 2.675 is stored slightly below the tie and rounds down,
    0.125 and 0.375 are exact ties. *)
Lemma py_round_samples :
  py_round 2.675 2 = 2.67%float
  ∧ py_round 0.125 2 = 0.12%float
  ∧ py_round 0.375 2 = 0.38%float
  ∧ py_round 54.98 2 = 54.98%float
  ∧ py_round (-0.001) 2 = neg_zero
  ∧ py_round 1e22 2 = 1e22%float
  ∧ py_round infinity 2 = infinity.
Proof. repeat split. Qed.

(** [sum] on CPython 3.12 and later, and before. *)
Lemma py_sum_samples :
  py_sum true (repeat 0.1%float 10) = 1%float
  ∧ py_sum false (repeat 0.1%float 10) = 0.9999999999999999%float
  ∧ py_sum true [0.1; 0.2; 0.3]%float = 0.6%float
  ∧ py_sum false [0.1; 0.2; 0.3]%float = 0.6000000000000001%float
  ∧ py_sum true [1e100; 1; -1e100]%float = 1%float
  ∧ py_sum false [1e100; 1; -1e100]%float = 0%float
  ∧ py_sum true [2.4; 0.579; 2.626]%float = 5.6049999999999995%float
  ∧ py_sum false [2.4; 0.579; 2.626]%float = 5.605%float
  ∧ py_sum true [1e308; 1e308]%float = infinity
  ∧ py_sum true [] = 0%float
  ∧ py_sum false [] = 0%float.
Proof. repeat split. Qed.

(** The integers that the schema takes from a float stop short of 2^63. *)
Lemma validate_int_samples rt :
  validate_int rt (PyFloat 2) = Some 2
  ∧ validate_int rt (PyFloat 2.5) = None
  ∧ validate_int rt (PyFloat 9223372036854774784) = Some 9223372036854774784
  ∧ validate_int rt (PyFloat 9223372036854775808) = None
  ∧ validate_int rt (PyFloat (-9223372036854775808)) = None
  ∧ validate_int rt (PyFloat 1e19) = None
  ∧ validate_int rt (PyInt 10000000000000000000) = Some 10000000000000000000.
Proof. repeat split. Qed.

Lemma py_int_samples rt :
  py_int rt (PyFloat 2.9) = inr 2
  ∧ py_int rt (PyFloat (-2.9)) = inr (-2)
  ∧ py_int rt (PyBool true) = inr 1
  ∧ py_int rt (PyFloat infinity) = inl OverflowError
  ∧ py_int rt (PyFloat nan) = inl ValueError
  ∧ py_int rt PyNone = inl TypeError.
Proof. repeat split. Qed.

Lemma py_float_samples rt :
  py_float rt (PyInt 3) = inr 3%float
  ∧ py_float rt (PyInt (2 ^ 53 + 1)) = inr 9007199254740992%float
  ∧ py_float rt (PyInt (2 ^ 1024)) = inl OverflowError
  ∧ py_float rt PyNone = inl TypeError
  ∧ py_float_mul_int 19.99 2 = inr 39.98%float.
Proof. repeat split. Qed.

(** * Catalog query *)

Section Catalog.

Implicit Types q category size color : option string.
Implicit Types min_price max_price : option float.

Lemma truthy_Some s x : truthy s = Some x ↔ s = Some x ∧ x ≠ EmptyString.
Proof.
  destruct s as [[|a s]|]; simpl; split.
  all: try (intros [[= <-] ?]; done); try done.
  intros [= <-]. done.
Qed.

Lemma truthy_is_Some s : is_Some (truthy s) ↔ non_empty s.
Proof.
  unfold non_empty. split.
  - intros [x Hx]. exists x. by apply truthy_Some.
  - intros [x Hx]. exists x. by apply truthy_Some.
Qed.

Lemma truthy_empty : truthy (Some EmptyString) = None.
Proof. reflexivity. Qed.

(** Splits the six parameters into the cases the query depends on. *)
Ltac query_cases q category size color min_price max_price :=
  unfold products_query;
  destruct (truthy q), (truthy category), (truthy size), (truthy color),
    min_price, max_price.

(** The clauses of the string filters, read off the query. *)
Lemma products_query_values q category size color min_price max_price :
  let query := products_query q category size color min_price max_price in
  query !! "title" = title_clause <$> truthy q
  ∧ query !! "category" = QStr <$> truthy category
  ∧ query !! "variants.size" = QStr <$> truthy size
  ∧ query !! "variants.color" = QStr <$> truthy color.
Proof.
  query_cases q category size color min_price max_price;
    repeat split; reflexivity.
Qed.

Lemma products_query_price_bounds q category size color min_price max_price :
  let query := products_query q category size color min_price max_price in
  price_bound query "$gte" = min_price ∧ price_bound query "$lte" = max_price.
Proof.
  unfold price_bound.
  query_cases q category size color min_price max_price;
    split; reflexivity.
Qed.

Lemma products_query_active q category size color min_price max_price :
  products_query q category size color min_price max_price !! "is_active"
  = Some (QBool true).
Proof.
  query_cases q category size color min_price max_price; reflexivity.
Qed.

Lemma products_query_keys q category size color min_price max_price :
  dom (products_query q category size color min_price max_price)
  ⊆ {[ "is_active"; "title"; "category"; "price"; "variants.size";
       "variants.color" ]}.
Proof.
  query_cases q category size color min_price max_price;
    apply (bool_decide_unpack _); vm_compute; reflexivity.
Qed.

(** C6, as amended: the query always holds the clause [is_active = True];
    it holds the clause of a string filter (term, category, size, color)
    exactly when the parameter was supplied with a non-empty string, and a
    lower or upper price bound exactly when [min_price] or [max_price] was
    supplied; it holds no other clause.  All clauses sit in the one dict the
    store evaluates as a conjunction. *)
Theorem products_query_clauses q category size color min_price max_price :
  let query := products_query q category size color min_price max_price in
  query !! "is_active" = Some (QBool true)
  ∧ (is_Some (query !! "title") ↔ non_empty q)
  ∧ (is_Some (query !! "category") ↔ non_empty category)
  ∧ (is_Some (query !! "variants.size") ↔ non_empty size)
  ∧ (is_Some (query !! "variants.color") ↔ non_empty color)
  ∧ (is_Some (price_bound query "$gte") ↔ is_Some min_price)
  ∧ (is_Some (price_bound query "$lte") ↔ is_Some max_price)
  ∧ dom query ⊆ {[ "is_active"; "title"; "category"; "price";
                   "variants.size"; "variants.color" ]}.
Proof.
  intros query. subst query.
  destruct (products_query_values q category size color min_price max_price)
    as (Htitle & Hcategory & Hsize & Hcolor).
  destruct (products_query_price_bounds q category size color
              min_price max_price) as [Hgte Hlte].
  rewrite Htitle, Hcategory, Hsize, Hcolor, Hgte, Hlte.
  rewrite !fmap_is_Some, !truthy_is_Some.
  split; [apply products_query_active|].
  repeat (split; [done|]).
  apply products_query_keys.
Qed.

(** C6, as stated, fails: the term was supplied, as the empty string, and
    the query holds no clause for it. *)
Lemma products_query_empty_term_no_clause :
  is_Some (Some EmptyString)
  ∧ products_query (Some EmptyString) None None None None None !! "title"
    = None.
Proof. split; [by eexists|reflexivity]. Qed.

(** C8: the price bounds make one clause on [price].  With neither bound the
    query has no such clause; otherwise the clause is a range whose [$gte]
    entry is the supplied minimum, whose [$lte] entry is the supplied
    maximum, an absent bound leaving its side open, and which has no other
    entry. *)
Theorem products_query_price_range q category size color min_price max_price :
  let query := products_query q category size color min_price max_price in
  match min_price, max_price with
  | None, None => query !! "price" = None
  | _, _ =>
      ∃ ops, query !! "price" = Some (QRange ops)
             ∧ ops !! "$gte" = min_price
             ∧ ops !! "$lte" = max_price
             ∧ dom ops ⊆ {[ "$gte"; "$lte" ]}
  end.
Proof.
  query_cases q category size color min_price max_price; cbv zeta.
  all: first
    [ reflexivity
    | eexists; split; [reflexivity|];
      split; [reflexivity|]; split; [reflexivity|];
      apply (bool_decide_unpack _); vm_compute; reflexivity ].
Qed.

(** C9: an empty string for the term, the category, the size or the color
    gives the query that the absent parameter gives, while a price bound of
    [0.0] is a bound like any other and is put in the price clause. *)
Theorem products_query_empty_string_and_zero_price
    q category size color min_price max_price :
  products_query (Some EmptyString) category size color min_price max_price
  = products_query None category size color min_price max_price
  ∧ products_query q (Some EmptyString) size color min_price max_price
    = products_query q None size color min_price max_price
  ∧ products_query q category (Some EmptyString) color min_price max_price
    = products_query q category None color min_price max_price
  ∧ products_query q category size (Some EmptyString) min_price max_price
    = products_query q category size None min_price max_price
  ∧ price_bound
      (products_query q category size color (Some 0%float) max_price) "$gte"
    = Some 0%float
  ∧ price_bound
      (products_query q category size color min_price (Some 0%float)) "$lte"
    = Some 0%float.
Proof.
  repeat (split; [reflexivity|]).
  split; apply products_query_price_bounds.
Qed.

End Catalog.

(** * Checkout and product lookup *)

Section Checkout.

Context (rt : Runtime).

(** *** The result monad *)

Lemma bind_inr {A B} (m : Result A) (f : A → Result B) y :
  m ≫= f = inr y ↔ ∃ x, m = inr x ∧ f x = inr y.
Proof.
  destruct m as [e|x]; simpl; split.
  - discriminate.
  - intros (x & Hx & _). discriminate.
  - eauto.
  - intros (x' & [= <-] & Hx). done.
Qed.

Lemma bind_inl {A B} (m : Result A) (f : A → Result B) e :
  m ≫= f = inl e ↔ m = inl e ∨ ∃ x, m = inr x ∧ f x = inl e.
Proof.
  destruct m as [e'|x]; simpl; split.
  - intros [= <-]. by left.
  - intros [[= <-]|(x & Hx & _)]; [done|discriminate].
  - eauto.
  - intros [|(x' & [= <-] & Hx)]; [discriminate|done].
Qed.

Lemma from_option_inr {A} (o : option A) e y :
  from_option mret (raise e) o = inr y ↔ o = Some y.
Proof.
  destruct o; simpl; split; try discriminate; by intros [= <-].
Qed.

Lemma mapM_result_cons {A B} (f : A → Result B) x l :
  mapM f (x :: l) = y ← f x; k ← mapM f l; mret (y :: k).
Proof. reflexivity. Qed.

(** The first error of a traversal is the error of one of the items. *)
Lemma mapM_inl {A B} (f : A → Result B) l e :
  mapM f l = inl e → ∃ x, x ∈ l ∧ f x = inl e.
Proof.
  induction l as [|x l IH]; [discriminate|].
  rewrite mapM_result_cons, bind_inl.
  intros [Hx|(y & Hy & Hl)].
  - exists x. split; [left|done].
  - apply bind_inl in Hl as [Hl|(k & _ & ?)]; [|discriminate].
    destruct (IH Hl) as (x' & ? & ?). exists x'. split; [by right|done].
Qed.

Lemma mapM_option_Forall {A B} (f : A → option B) l k :
  mapM f l = Some k → Forall (λ x, is_Some (f x)) l.
Proof.
  intros H. apply mapM_Some in H.
  induction H; constructor; eauto.
Qed.

(** *** Pricing *)

Lemma py_float_of_int_error z e : py_float_of_int z = inl e → e = OverflowError.
Proof. unfold py_float_of_int. case (is_infinity _); [by intros [= <-]|done]. Qed.

Lemma py_int_of_float_error f e :
  py_int_of_float f = inl e → e = ValueError ∨ e = OverflowError.
Proof.
  unfold py_int_of_float. destruct (Prim2SF f) as [| | |s m x]; try done.
  - intros [= <-]. by right.
  - intros [= <-]. by left.
  - by destruct (Float.magnitude m x).
Qed.

Lemma py_float_error v e : py_float rt v = inl e → pricing_error e.
Proof.
  unfold pricing_error.
  destruct v as [|b|z|f|s|l|d]; simpl; try (intros [= <-]; tauto); try done.
  - intros ->%py_float_of_int_error. tauto.
  - destruct (float_of_str rt s); [done|]. intros [= <-]. tauto.
Qed.

Lemma py_int_error v e : py_int rt v = inl e → pricing_error e.
Proof.
  unfold pricing_error.
  destruct v as [|b|z|f|s|l|d]; simpl; try (intros [= <-]; tauto); try done.
  - intros [->| ->]%py_int_of_float_error; tauto.
  - destruct (int_of_str rt s); [done|]. intros [= <-]. tauto.
Qed.

Lemma line_total_error i e : line_total rt i = inl e → pricing_error e.
Proof.
  unfold line_total. rewrite bind_inl.
  intros [H|(price & _ & H)]; [by eapply py_float_error|].
  apply bind_inl in H as [H|(quantity & _ & H)]; [by eapply py_int_error|].
  unfold py_float_mul_int in H.
  apply bind_inl in H as [->%py_float_of_int_error|(y & _ & ?)]; [|done].
  unfold pricing_error. tauto.
Qed.

Lemma checkout_pricing_inl items e :
  checkout_pricing rt items = inl e ↔ mapM (line_total rt) items = inl e.
Proof.
  unfold checkout_pricing. rewrite bind_inl. split; [|by left].
  intros [H|(lines & _ & H)]; [exact H|discriminate H].
Qed.

Lemma checkout_pricing_inr items subtotal shipping total :
  checkout_pricing rt items = inr (subtotal, shipping, total) ↔
  ∃ lines, mapM (line_total rt) items = inr lines
           ∧ subtotal = py_sum (compensated_sum rt) lines
           ∧ shipping = 0%float
           ∧ total = py_round (subtotal + shipping) 2.
Proof.
  unfold checkout_pricing. rewrite bind_inr. split.
  - intros (lines & Hlines & [= <- <- <-]). by exists lines.
  - intros (lines & Hlines & -> & -> & ->). by exists lines.
Qed.

(** *** Rounding and sums *)

Lemma magnitude_pos m e n d :
  Float.magnitude m e = (n, d) → 0 < n ∧ 0 < d.
Proof.
  unfold Float.magnitude. destruct (0 <=? e) eqn:He; intros [= <- <-].
  - apply Z.leb_le in He. split; [|lia].
    apply Z.mul_pos_pos; [lia|]. by apply Z.pow_pos_nonneg.
  - apply Z.leb_gt in He. split; [lia|]. apply Z.pow_pos_nonneg; lia.
Qed.

Lemma round_half_even_nearest n d :
  0 ≤ n → 0 < d →
  let k := Float.round_half_even n d in
  0 ≤ k ∧ 2 * Z.abs (n - k * d) ≤ d
  ∧ (2 * Z.abs (n - k * d) = d → Z.even k = true).
Proof.
  intros Hn Hd. unfold Float.round_half_even.
  pose proof (Z.div_mod n d ltac:(lia)) as Hdiv.
  pose proof (Z.mod_pos_bound n d Hd) as Hmod.
  pose proof (Z.div_pos n d Hn Hd) as Hq.
  set (q := n / d) in *. set (r := n mod d) in *.
  assert (Hnq : n - q * d = r) by lia.
  assert (Hnq' : n - (q + 1) * d = r - d) by lia.
  destruct (Z.compare_spec (2 * r) d) as [Heq|Hlt|Hgt]; simpl.
  - destruct (Z.even q) eqn:Heven.
    + rewrite Hnq. split; [done|]. split; [lia|done].
    + rewrite Hnq'. split; [lia|]. split; [lia|].
      intros _. rewrite Z.even_add, Heven. done.
  - rewrite Hnq. split; [done|]. split; lia.
  - rewrite Hnq'. split; [lia|]. split; lia.
Qed.

(** [round] gives the nearest amount of [ndigits] decimal places, the even
    one at a tie. *)
Lemma py_round_rounded_to x ndigits : rounded_to ndigits x (py_round x ndigits).
Proof.
  unfold rounded_to, py_round.
  destruct (Prim2SF x) as [| | |s m e]; try done.
  destruct (Float.magnitude m e) as [n d] eqn:Hm.
  apply magnitude_pos in Hm as [Hn Hd].
  assert (Hscale : 0 < 10 ^ Z.of_nat ndigits) by (apply Z.pow_pos_nonneg; lia).
  destruct (round_half_even_nearest (n * 10 ^ Z.of_nat ndigits) d)
    as (Hk & Hnear & Htie); [nia|done|].
  eexists. split; [exact Hk|]. split; [exact Hnear|]. split; [exact Htie|done].
Qed.

(** The sum of an interpreter before 3.12 is the left fold of the float
    addition from 0.0; the sum of a later one is the compensated sum from
    the first float added to 0. *)
Lemma py_sum_plain xs : py_sum false xs = fold_left PrimFloat.add xs 0%float.
Proof. by destruct xs. Qed.

Lemma py_sum_compensated xs :
  py_sum true xs
  = compensated_result
      (fold_left compensated_step (tail xs) ((0 + hd 0 xs)%float, 0%float)).
Proof. by destruct xs. Qed.

(** *** What the pricing reads *)

Lemma float_as_int_py_int f z :
  float_as_int f = Some z → py_int_of_float f = inr z.
Proof.
  unfold float_as_int, py_int_of_float.
  destruct (Prim2SF f) as [s|s| |s m e]; try done.
  - by intros [= <-].
  - destruct (Float.magnitude m e) as [n d].
    destruct (n mod d =? 0); [by intros [= <-]|done].
Qed.

Lemma int64_open_Some z z' :
  int64_open z = Some z' ↔ z' = z ∧ - 2 ^ 63 < z < 2 ^ 63.
Proof.
  unfold int64_open.
  destruct (- 2 ^ 63 <? z) eqn:Hl; destruct (z <? 2 ^ 63) eqn:Hu; simpl;
    try apply Z.ltb_lt in Hl; try apply Z.ltb_lt in Hu;
    try apply Z.ltb_ge in Hl; try apply Z.ltb_ge in Hu;
    split; try (intros [= <-]); try (intros [-> ?]); try done; try lia.
Qed.

(** On the texts on which the interpreter agrees with pydantic, and on
    every value that is no text, [int] and [float] read what the schema
    reads. *)
Lemma validate_int_py_int v z :
  validate_int rt v = Some z →
  (∀ s, v = PyStr s → int_of_str rt s = Some z) →
  py_int rt v = inr z.
Proof.
  destruct v as [|b|z'|f|s|l|d]; simpl; intros H Hs; try done.
  - by injection H as <-.
  - by injection H as <-.
  - apply bind_Some in H as (z' & Hz' & [-> _]%int64_open_Some).
    by apply float_as_int_py_int.
  - by rewrite (Hs s eq_refl).
Qed.

Lemma validate_float_py_float v f :
  validate_float rt v = Some f →
  (∀ s, v = PyStr s → float_of_str rt s = Some f) →
  py_float rt v = inr f.
Proof.
  destruct v as [|b|z|f'|s|l|d]; simpl; intros H Hs; try done.
  - by injection H as <-.
  - destruct (py_float_of_int z); [done|by injection H as <-].
  - by injection H as <-.
  - by rewrite (Hs s eq_refl).
Qed.

Lemma validated_reads i line :
  item_price rt i = Some line.1 → item_quantity rt i = Some line.2 →
  text_agrees rt i → reads rt i line.
Proof.
  unfold item_price, item_quantity, required, reads, dict_get_default.
  intros (vp & Hvp & Hp)%bind_Some (vq & Hvq & Hq)%bind_Some [Hptext Hqtext].
  rewrite Hvp, Hvq. simpl. split.
  - apply validate_float_py_float; [done|]. intros s ->. eauto.
  - apply validate_int_py_int; [done|]. intros s ->. eauto.
Qed.

Lemma item_valid_validated i :
  item_valid rt i → ∃ line, validated rt i line.
Proof. intros [(z & Hz & ?) (p & Hp & ?)]. by exists (p, z). Qed.

Lemma Forall_item_valid_validated items :
  Forall (item_valid rt) items → ∃ lines, Forall2 (validated rt) items lines.
Proof.
  induction 1 as [|i items (line & Hline)%item_valid_validated _ [lines IH]].
  - by exists [].
  - exists (line :: lines). by constructor.
Qed.

Lemma line_total_reads i line :
  reads rt i line →
  line_total rt i
  = if is_infinity (Float.of_Z line.2) then inl OverflowError
    else inr (line.1 * Float.of_Z line.2)%float.
Proof.
  intros [Hp Hq]. unfold line_total. rewrite Hp, Hq. simpl.
  unfold py_float_mul_int, py_float_of_int.
  by destruct (is_infinity (Float.of_Z line.2)).
Qed.

(** The pricing of the lines that it reads: the products price x quantity,
    or [OverflowError] when a quantity is beyond the floats. *)
Lemma mapM_line_total_reads items lines :
  Forall2 (reads rt) items lines →
  Exists (λ line, is_infinity (Float.of_Z line.2) = true) lines
  ∧ mapM (line_total rt) items = inl OverflowError
  ∨ mapM (line_total rt) items
    = inr ((λ line, (line.1 * Float.of_Z line.2)%float) <$> lines).
Proof.
  induction 1 as [|i line items lines Hi _ IH]; [by right|].
  rewrite mapM_result_cons, (line_total_reads i line Hi).
  destruct (is_infinity (Float.of_Z line.2)) eqn:Hinf.
  - left. split; [by left|done].
  - destruct IH as [[Hex ->]| ->]; [left|by right].
    split; [by right|done].
Qed.



(** *** Validation *)

Lemma ge_int_Some bound z z' : ge_int bound z = Some z' ↔ z' = z ∧ bound ≤ z.
Proof.
  unfold ge_int. destruct (Z.leb_spec bound z); split.
  - by intros [= <-].
  - by intros [-> _].
  - done.
  - intros [_ ?]. lia.
Qed.

Lemma ge_float_Some bound f f' :
  ge_float bound f = Some f' ↔ f' = f ∧ (bound <=? f)%float = true.
Proof.
  unfold ge_float. destruct (bound <=? f)%float; split.
  - by intros [= <-].
  - by intros [-> _].
  - done.
  - by intros [_ ?].
Qed.

Lemma CartItem_validate_Some i c :
  CartItem_validate rt i = Some c →
  item_quantity rt i = Some (CartItem.quantity c)
  ∧ 1 ≤ CartItem.quantity c
  ∧ item_price rt i = Some (CartItem.price c)
  ∧ (0 <=? CartItem.price c)%float = true.
Proof.
  unfold CartItem_validate, item_quantity, item_price.
  intros (product_id & _ & H)%bind_Some.
  apply bind_Some in H as (quantity & Hq & H).
  apply bind_Some in Hq as (z & Hz & [-> ?]%ge_int_Some).
  apply bind_Some in H as (price & Hp & H).
  apply bind_Some in Hp as (p & Hp & [-> ?]%ge_float_Some).
  apply bind_Some in H as (title & _ & H).
  apply bind_Some in H as (variant & _ & H).
  apply bind_Some in H as (image & _ & [= <-]).
  done.
Qed.

Lemma CartItem_validate_valid i :
  is_Some (CartItem_validate rt i) → item_valid rt i.
Proof.
  intros [c (Hq & ? & Hp & ?)%CartItem_validate_Some].
  split; eauto.
Qed.

(** Items that break the invariant: a quantity that is an int below 1, a
    price that is a float not at least 0 (a negative number or a NaN), and a
    quantity or a price that is missing. *)
Lemma item_invalid_quantity i z :
  dict_get i "quantity" = Some (PyInt z) → z < 1 → ¬ item_valid rt i.
Proof.
  intros Hq Hz [(z' & Hz' & ?) _]. unfold item_quantity, required in Hz'.
  rewrite Hq in Hz'. injection Hz' as <-. lia.
Qed.

Lemma item_invalid_price i p :
  dict_get i "price" = Some (PyFloat p) → (0 <=? p)%float = false →
  ¬ item_valid rt i.
Proof.
  intros Hp Hneg [_ (p' & Hp' & Hge)]. unfold item_price, required in Hp'.
  rewrite Hp in Hp'. injection Hp' as <-. congruence.
Qed.

Lemma item_invalid_missing i :
  dict_get i "quantity" = None ∨ dict_get i "price" = None → ¬ item_valid rt i.
Proof.
  unfold item_valid, item_quantity, item_price, required.
  intros [H|H] [(z & Hz & _) (p & Hp & _)]; rewrite H in *; discriminate.
Qed.

(** A cart with an item that breaks the invariant does not validate. *)
Lemma mapM_CartItem_validate_invalid items i :
  i ∈ items → ¬ item_valid rt i → mapM (CartItem_validate rt) items = None.
Proof.
  intros Hi Hbad. apply eq_None_not_Some. intros [k Hk].
  apply mapM_option_Forall in Hk.
  rewrite Forall_forall in Hk.
  by apply Hbad, CartItem_validate_valid, Hk.
Qed.

Lemma Order_new_inr user_id items subtotal shipping total payment_method
    shipping_address email order :
  Order_new rt user_id items subtotal shipping total payment_method
    shipping_address email = inr order →
  is_Some (mapM (CartItem_validate rt) items)
  ∧ Order.subtotal order = subtotal
  ∧ Order.shipping order = shipping
  ∧ Order.total order = total
  ∧ Order.status order = OrderStatus.pending
  ∧ Order.payment_status order = PaymentStatus.pending
  ∧ PaymentMethod.validate payment_method = Some (Order.payment_method order).
Proof.
  unfold Order_new. rewrite from_option_inr.
  intros (cart & Hcart & H)%bind_Some.
  apply bind_Some in H as (? & [-> _]%ge_float_Some & H).
  apply bind_Some in H as (? & [-> _]%ge_float_Some & H).
  apply bind_Some in H as (pm & Hpm & H).
  apply bind_Some in H as (address & _ & H).
  apply bind_Some in H as (em & _ & [= <-]).
  simpl. eauto 10.
Qed.

Lemma Order_new_inl user_id items subtotal shipping total payment_method
    shipping_address email e :
  Order_new rt user_id items subtotal shipping total payment_method
    shipping_address email = inl e → e = ValidationError.
Proof.
  unfold Order_new.
  match goal with |- from_option _ _ ?o = _ → _ => destruct o end;
    [done|by intros [= <-]].
Qed.

Lemma PaymentMethod_validate_Some s pm :
  PaymentMethod.validate s = Some pm →
  s = "stripe" ∧ pm = PaymentMethod.stripe ∨ s = "cod" ∧ pm = PaymentMethod.cod.
Proof.
  unfold PaymentMethod.validate.
  destruct (String.eqb_spec s "stripe") as [->|_]; [intros [= <-]; by left|].
  destruct (String.eqb_spec s "cod") as [->|_]; [intros [= <-]; by right|].
  done.
Qed.

(** *** The store *)

Lemma create_document_inr name data db oid db' :
  create_document name data db = (inr oid, db') →
  ∃ d d', db = Some d ∧ db' = Some d' ∧ up d = true
          ∧ oid = id_of d (inserted d)
          ∧ collection d' name
            = (collection d name ++ [{| _id := oid; body := data |}])%list.
Proof.
  unfold create_document. destruct db as [d|]; [|done].
  destruct (up d) eqn:Hup; [|done].
  intros [= <- <-]. eexists _, _. repeat (split; [done|]).
  unfold collection at 1. simpl. by rewrite lookup_insert_eq.
Qed.

Lemma create_document_inl name data db e db' :
  create_document name data db = (inl e, db') → db' = db.
Proof.
  unfold create_document. destruct db as [d|]; [|by intros [= _ <-]].
  destruct (up d); [done|by intros [= _ <-]].
Qed.

Lemma last_document_snoc d name l doc :
  collection d name = (l ++ [doc])%list →
  last_document (Some d) name = Some doc.
Proof. unfold last_document. simpl. intros ->. apply last_snoc. Qed.

(** *** The handler *)

Lemma checkout_order_inr payload total order :
  checkout_order rt payload = inr (total, order) →
  ∃ subtotal shipping,
    checkout_pricing rt (CheckoutPayload.items payload)
    = inr (subtotal, shipping, total)
    ∧ Order_new rt None (CheckoutPayload.items payload) subtotal shipping
        total (CheckoutPayload.payment_method payload)
        (CheckoutPayload.shipping_address payload)
        (CheckoutPayload.email payload) = inr order.
Proof.
  unfold checkout_order.
  intros ([[subtotal shipping] total'] & Hpricing & H)%bind_inr.
  apply bind_inr in H as (order' & Horder & [= -> ->]).
  by exists subtotal, shipping.
Qed.

Lemma checkout_inr payload db resp db' :
  checkout rt payload db = (inr resp, db') →
  ∃ order,
    CheckoutPayload.items payload ≠ []
    ∧ checkout_order rt payload = inr (CheckoutResponse.total resp, order)
    ∧ create_document "order" (OrderDoc order) db
      = (inr (CheckoutResponse.order_id resp), db')
    ∧ CheckoutResponse.payment resp
      = payment_stub (CheckoutPayload.payment_method payload)
          (CheckoutResponse.order_id resp).
Proof.
  unfold checkout. destruct (CheckoutPayload.items payload) as [|i items];
    [done|].
  destruct (checkout_order rt payload) as [e|[total order]]; [done|].
  destruct (create_document "order" (OrderDoc order) db)
    as [[e|order_id] db''] eqn:Hcreate; [done|].
  intros [= <- <-]. by exists order.
Qed.

(** A checkout that answers has priced its cart, validated the order and
    appended it to the [order] collection under the answered identifier. *)
Lemma checkout_inr_order payload db resp db' :
  checkout rt payload db = (inr resp, db') →
  ∃ d d' lines order,
    db = Some d ∧ db' = Some d'
    ∧ mapM (line_total rt) (CheckoutPayload.items payload) = inr lines
    ∧ Order_new rt None (CheckoutPayload.items payload)
        (py_sum (compensated_sum rt) lines)
        0%float (CheckoutResponse.total resp)
        (CheckoutPayload.payment_method payload)
        (CheckoutPayload.shipping_address payload)
        (CheckoutPayload.email payload) = inr order
    ∧ CheckoutResponse.total resp
      = py_round (py_sum (compensated_sum rt) lines + 0) 2
    ∧ collection d' "order"
      = (collection d "order"
         ++ [{| _id := CheckoutResponse.order_id resp;
                body := OrderDoc order |}])%list.
Proof.
  intros (order & _ & Horder & Hcreate & _)%checkout_inr.
  apply checkout_order_inr in Horder as (subtotal & shipping & Hp & Horder).
  apply checkout_pricing_inr in Hp as (lines & Hlines & -> & -> & Htotal).
  apply create_document_inr in Hcreate as (d & d' & -> & -> & _ & _ & Hd').
  by exists d, d', lines, order.
Qed.

(** C5: a checkout with an empty item list raises [HTTPException(400,
    "No items")], a client error, and leaves the store as it was. *)
Theorem checkout_empty_cart email shipping_address payment_method db :
  checkout rt (CheckoutPayload.mk [] email shipping_address payment_method) db
  = (raise (HTTPException 400 "No items"), db)
  ∧ client_error (HTTPException 400 "No items").
Proof. split; [reflexivity|]. simpl. lia. Qed.

(** C3, as amended: when an item of the cart breaks the invariant (its
    quantity does not read as an integer of at least 1, or its price does
    not read as a float of at least 0), the checkout raises and leaves the
    store as it was.  The exception is pydantic's [ValidationError] when
    the pricing of every line succeeded, and otherwise the [TypeError],
    [ValueError] or [OverflowError] that the pricing raised. *)
Theorem checkout_rejects_invalid_item payload db i :
  i ∈ CheckoutPayload.items payload →
  ¬ item_valid rt i →
  ∃ e, checkout rt payload db = (inl e, db)
       ∧ match mapM (line_total rt) (CheckoutPayload.items payload) with
         | inr _ => e = ValidationError
         | inl e' => e = e' ∧ pricing_error e
         end.
Proof.
  intros Hi Hbad. unfold checkout.
  destruct (CheckoutPayload.items payload) as [|i0 items] eqn:Hitems;
    [by apply elem_of_nil in Hi|].
  rewrite <- Hitems in *. clear i0 items Hitems.
  destruct (checkout_order rt payload) as [e|[total order]] eqn:Horder.
  - exists e. split; [done|].
    unfold checkout_order in Horder.
    apply bind_inl in Horder as [Hp|([[subtotal shipping] total] & Hp & H)].
    + apply checkout_pricing_inl in Hp. rewrite Hp. split; [done|].
      apply mapM_inl in Hp as (x & _ & Hx). by eapply line_total_error.
    + apply checkout_pricing_inr in Hp as (lines & -> & _).
      apply bind_inl in H as [H|(order & _ & ?)]; [|done].
      by eapply Order_new_inl.
  - apply checkout_order_inr in Horder as (subtotal & shipping & _ & Horder).
    apply Order_new_inr in Horder as [[cart Hcart] _].
    by rewrite (mapM_CartItem_validate_invalid _ i Hi Hbad) in Hcart.
Qed.

(** Where the interpreter reads the texts as pydantic does, the pricing
    reads on every item what the schema reads. *)
Lemma Forall2_validated_reads items lines :
  Forall2 (validated rt) items lines → Forall (text_agrees rt) items →
  Forall2 (reads rt) items lines.
Proof.
  induction 1 as [|i line items lines (Hp & Hq & _) _ IH]; [constructor|].
  intros [Hi Hitems]%Forall_cons. constructor; [|by apply IH].
  by apply validated_reads.
Qed.

(** A cart whose pricing overflows is refused with that error. *)
Lemma checkout_pricing_overflow payload db :
  mapM (line_total rt) (CheckoutPayload.items payload) = inl OverflowError →
  checkout rt payload db = (inl OverflowError, db).
Proof.
  intros Hlines. unfold checkout.
  destruct (CheckoutPayload.items payload) as [|i items] eqn:Hitems;
    [discriminate|].
  unfold checkout_order, checkout_pricing. by rewrite Hitems, Hlines.
Qed.

(** A cart that is priced is answered with its total, unless the order is
    refused or the store fails. *)
Lemma checkout_priced payload subtotal total db :
  CheckoutPayload.items payload ≠ [] →
  checkout_pricing rt (CheckoutPayload.items payload)
  = inr (subtotal, 0%float, total) →
  (∃ resp db', checkout rt payload db = (inr resp, db')
               ∧ CheckoutResponse.total resp = total)
  ∨ (∃ e, checkout rt payload db = (inl e, db)
          ∧ (e = ValidationError ∨ e = StoreError)).
Proof.
  intros Hne Hpricing. unfold checkout.
  destruct (CheckoutPayload.items payload) as [|i items] eqn:Hitems; [done|].
  rewrite <- Hitems in *. clear i items Hitems Hne.
  unfold checkout_order. rewrite Hpricing. simpl.
  destruct (Order_new rt None _ _ _ _ _ _ _) as [e|order] eqn:Horder; simpl.
  { right. exists e. split; [done|]. left. by eapply Order_new_inl. }
  destruct (create_document "order" (OrderDoc order) db)
    as [[e|order_id] db'] eqn:Hcreate.
  - right. exists e. rewrite (create_document_inl _ _ _ _ _ Hcreate).
    split; [done|]. right. unfold create_document in Hcreate.
    destruct db as [d|]; [|by injection Hcreate as <-].
    destruct (up d); [done|by injection Hcreate as <-].
  - left. by eexists _, _.
Qed.

(** C4: take a non-empty cart whose every item has, as the [CartItem] schema
    reads it, a quantity of at least 1 and a price of at least 0, the
    interpreter reading the texts of the cart as pydantic does.  With the
    price and the quantity of each line those that the schema reads, the
    pricing of the checkout gives as subtotal the sum of the products
    price x quantity (the floats added from left to right from 0.0, with
    the compensation of [sum] on CPython 3.12 and later), 0.0 as shipping,
    and as total the subtotal plus the shipping rounded to 2 decimal places,
    ties to even; the checkout answers with that total, unless the order is
    refused by its schema or the store fails.  A quantity beyond the floats
    is the one case where no total is computed: the checkout raises
    [OverflowError] and leaves the store as it was. *)
Theorem checkout_total payload :
  CheckoutPayload.items payload ≠ [] →
  Forall (item_valid rt) (CheckoutPayload.items payload) →
  Forall (text_agrees rt) (CheckoutPayload.items payload) →
  ∃ lines,
    Forall2 (validated rt) (CheckoutPayload.items payload) lines
    ∧ (Exists (λ line, is_infinity (Float.of_Z line.2) = true) lines
       ∧ (∀ db, checkout rt payload db = (inl OverflowError, db))
       ∨ ∃ subtotal total,
           let products :=
             (λ line, (line.1 * Float.of_Z line.2)%float) <$> lines in
           checkout_pricing rt (CheckoutPayload.items payload)
           = inr (subtotal, 0%float, total)
           ∧ subtotal
             = (if compensated_sum rt
                then compensated_result
                       (fold_left compensated_step (tail products)
                          ((0 + hd 0 products)%float, 0%float))
                else fold_left PrimFloat.add products 0%float)
           ∧ rounded_to 2 (subtotal + 0) total
           ∧ ∀ db,
               (∃ resp db', checkout rt payload db = (inr resp, db')
                            ∧ CheckoutResponse.total resp = total)
               ∨ (∃ e, checkout rt payload db = (inl e, db)
                       ∧ (e = ValidationError ∨ e = StoreError))).
Proof.
  intros Hne [lines Hlines]%Forall_item_valid_validated Htext.
  exists lines. split; [done|].
  destruct (mapM_line_total_reads _ _
              (Forall2_validated_reads _ _ Hlines Htext)) as [[Hex Hmap]|Hmap].
  - left. split; [done|]. intros db. by apply checkout_pricing_overflow.
  - assert (Hpricing :
              checkout_pricing rt (CheckoutPayload.items payload)
              = inr (py_sum (compensated_sum rt)
                       ((λ line, (line.1 * Float.of_Z line.2)%float)
                        <$> lines),
                     0%float,
                     py_round
                       (py_sum (compensated_sum rt)
                          ((λ line, (line.1 * Float.of_Z line.2)%float)
                           <$> lines) + 0) 2))
      by (unfold checkout_pricing; by rewrite Hmap).
    right. eexists _, _. cbv zeta. split; [exact Hpricing|].
    split; [|split].
    + destruct (compensated_sum rt);
        [apply py_sum_compensated|apply py_sum_plain].
    + apply py_round_rounded_to.
    + intros db. by eapply checkout_priced.
Qed.

(** C7: in the answer of a checkout, the payment stub of a [stripe]
    payment has status [requires_action] and the client secret
    ["cs_test_"] followed by the first 8 characters of the identifier of
    the new order, which is not empty; the stub of a [cod] payment has
    status [pending] and no client secret.  The payment method of an
    answered checkout is one of the two, and the identifier is the one
    under which the order was stored. *)
Theorem checkout_payment_stub payload db resp db' :
  checkout rt payload db = (inr resp, db') →
  let payment_method := CheckoutPayload.payment_method payload in
  let payment := CheckoutResponse.payment resp in
  let order_id := CheckoutResponse.order_id resp in
  (payment_method = "stripe" ∨ payment_method = "cod")
  ∧ (payment_method = "stripe" →
     payment !! "status" = Some "requires_action"
     ∧ payment !! "client_secret" = Some ("cs_test_" +:+ substring 0 8 order_id)
     ∧ "cs_test_" +:+ substring 0 8 order_id ≠ EmptyString)
  ∧ (payment_method = "cod" →
     payment !! "status" = Some "pending"
     ∧ payment !! "client_secret" = None)
  ∧ ∃ order, last_document db' "order"
             = Some {| _id := order_id; body := OrderDoc order |}.
Proof.
  intros Hcheckout. cbv zeta.
  destruct (checkout_inr _ _ _ _ Hcheckout) as (_ & _ & _ & _ & ->).
  apply checkout_inr_order in Hcheckout
    as (d & d' & lines & order & _ & -> & _ & Horder & _ & Hd').
  apply Order_new_inr in Horder as (_ & _ & _ & _ & _ & _ & Hpm).
  apply PaymentMethod_validate_Some in Hpm.
  split; [tauto|].
  split; [by intros ->|].
  split; [by intros ->|].
  exists order. by eapply last_document_snoc.
Qed.


(** Whatever the payment method, the order that a checkout stores has the
    default payment status. *)
Lemma checkout_order_payment_status payload total order :
  checkout_order rt payload = inr (total, order) →
  Order.status order = OrderStatus.pending
  ∧ Order.payment_status order = PaymentStatus.pending.
Proof.
  intros (subtotal & shipping & _ & Horder)%checkout_order_inr.
  apply Order_new_inr in Horder. tauto.
Qed.

(** C2, as amended: with a store that answers, the lookup of a well-formed
    identifier that no product has raises 404 "Not found" and the lookup of
    a malformed identifier raises 400 "Invalid id", two different errors;
    without a store, the lookup raises 404 "Not found" for every
    identifier, the error of the absent product. *)
Theorem get_product_errors d absent_id oid bad_id :
  up d = true →
  ObjectId_of_str rt absent_id = Some oid →
  (∀ doc, doc ∈ collection d "product" → _id doc ≠ oid) →
  ObjectId_of_str rt bad_id = None →
  get_product rt absent_id (Some d) = raise (HTTPException 404 "Not found")
  ∧ get_product rt bad_id (Some d) = raise (HTTPException 400 "Invalid id")
  ∧ get_product rt absent_id None = raise (HTTPException 404 "Not found")
  ∧ get_product rt bad_id None = raise (HTTPException 404 "Not found").
Proof.
  intros Hup Hoid Habsent Hbad. unfold get_product, ObjectId, find_one.
  rewrite Hoid, Hbad, Hup. simpl.
  repeat split.
  destruct (List.find _ _) as [doc|] eqn:Hfind; [|done].
  apply find_some in Hfind as [Hin Heq].
  apply String.eqb_eq in Heq.
  by destruct (Habsent doc); [apply list_elem_of_In|].
Qed.

(** A product that the store holds is answered with its public
    identifier. *)
Lemma get_product_found d product_id oid doc :
  up d = true →
  ObjectId_of_str rt product_id = Some oid →
  List.find (λ doc, String.eqb (_id doc) oid) (collection d "product")
  = Some doc →
  get_product rt product_id (Some d) = inr (to_public doc).
Proof.
  intros Hup Hoid Hfind. unfold get_product, ObjectId, find_one.
  by rewrite Hoid, Hup; simpl; rewrite Hfind.
Qed.

(** When the server does not answer, the lookup raises the error of the
    malformed identifier. *)
Lemma get_product_store_down d product_id :
  up d = false →
  get_product rt product_id (Some d) = raise (HTTPException 400 "Invalid id").
Proof.
  intros Hup. unfold get_product, ObjectId, find_one. rewrite Hup.
  by destruct (ObjectId_of_str rt product_id).
Qed.
End Checkout.

(** * Worked examples *)

(** The sample checkouts, evaluated. *)
Lemma checkout_sample_stripe :
  checkout sample_runtime (sample_payload sample_cart "stripe") (Some sample_db)
  = (inr stripe_response, Some (sample_db_with stripe_order)).
Proof. vm_compute. reflexivity. Qed.

Lemma checkout_sample_cod :
  checkout sample_runtime (sample_payload sample_cart "cod") (Some sample_db)
  = (inr cod_response, Some (sample_db_with cod_order)).
Proof. vm_compute. reflexivity. Qed.

Lemma checkout_dimes_cod :
  checkout sample_runtime (sample_payload dimes_cart "cod") (Some sample_db)
  = (inr dimes_response, Some (sample_db_with dimes_order)).
Proof. vm_compute. reflexivity. Qed.

(** The cart of the specification's example: subtotal 54.98, no shipping,
    total 54.98. *)
Lemma checkout_pricing_sample_cart rt :
  checkout_pricing rt sample_cart = inr (54.98, 0, 54.98)%float.
Proof. unfold checkout_pricing. by destruct (compensated_sum rt). Qed.

(** Three items at 0.1: the stored subtotal keeps the floating-point sum,
    the total is rounded. *)
Lemma dimes_order_amounts :
  Order.subtotal dimes_order = (0.1 * 3)%float
  ∧ Order.total dimes_order = 0.3%float
  ∧ (Order.subtotal dimes_order =? Order.total dimes_order)%float = false.
Proof. repeat split. Qed.

Lemma checkout_rounding_cod :
  checkout text_runtime (sample_payload rounding_cart "cod") (Some sample_db)
  = (inr rounding_response, Some (sample_db_with rounding_order)).
Proof. vm_compute. reflexivity. Qed.

Lemma checkout_three_line_cod :
  checkout sample_runtime (sample_payload three_line_cart "cod")
    (Some sample_db)
  = (inr three_line_response, Some (sample_db_with three_line_order)).
Proof. vm_compute. reflexivity. Qed.

Lemma checkout_three_line_plain_cod :
  checkout plain_sum_runtime (sample_payload three_line_cart "cod")
    (Some sample_db)
  = (inr three_line_plain_response,
     Some (sample_db_with three_line_plain_order)).
Proof. vm_compute. reflexivity. Qed.

(** Three lines that sum to a tie of the third decimal place: the total
    depends on how the interpreter forms the sum. *)
Lemma checkout_pricing_three_line_cart :
  checkout_pricing sample_runtime three_line_cart
  = inr (5.6049999999999995, 0, 5.6)%float
  ∧ checkout_pricing plain_sum_runtime three_line_cart
    = inr (5.605, 0, 5.61)%float.
Proof. split; reflexivity. Qed.

(** An int price, a price given as text and a float quantity are priced as
    the numbers they read as. *)
Lemma checkout_pricing_rounding_cart :
  checkout_pricing text_runtime rounding_cart
  = inr (18.204999999999998, 0, 18.2)%float.
Proof. reflexivity. Qed.

(** A quantity of 1e19 is an integral float that the schema refuses: the
    pricing goes through, the order is refused, nothing is written. *)
Lemma checkout_oversized_quantity :
  item_quantity sample_runtime oversized_quantity_item = None
  ∧ line_total sample_runtime oversized_quantity_item
    = inr (19.99 * 1e19)%float
  ∧ checkout sample_runtime (sample_payload oversized_quantity_cart "cod")
      (Some sample_db)
    = (inl ValidationError, Some sample_db).
Proof. repeat split. Qed.

(** C1: the code on a [stripe] checkout.  The order it stores has status
    [pending] and payment status [pending], the default of the schema, and
    not [requires_action], which is the status of the payment stub that the
    same checkout answers. *)
Theorem checkout_stripe_order_payment_status :
  ∃ resp order,
    checkout sample_runtime (sample_payload sample_cart "stripe")
      (Some sample_db)
    = (inr resp, Some (sample_db_with order))
    ∧ Order.status order = OrderStatus.pending
    ∧ Order.payment_method order = PaymentMethod.stripe
    ∧ Order.payment_status order = PaymentStatus.pending
    ∧ CheckoutResponse.payment resp !! "status" = Some "requires_action".
Proof.
  exists stripe_response, stripe_order.
  split; [apply checkout_sample_stripe|]. repeat split.
Qed.

(** C2, as stated, fails: without a store the lookup raises 404 "Not found",
    the error it raises for a well-formed identifier that no product has. *)
Lemma get_product_without_store_not_found :
  get_product sample_runtime well_formed_id None
  = raise (HTTPException 404 "Not found")
  ∧ get_product sample_runtime well_formed_id (Some catalog_db)
    = raise (HTTPException 404 "Not found").
Proof. split; reflexivity. Qed.

(** [get_product_errors] on the store that holds one product. *)
Lemma get_product_errors_witness :
  up catalog_db = true
  ∧ ObjectId_of_str sample_runtime well_formed_id = Some well_formed_id
  ∧ (∀ doc, doc ∈ collection catalog_db "product" → _id doc ≠ well_formed_id)
  ∧ ObjectId_of_str sample_runtime malformed_id = None
  ∧ get_product sample_runtime well_formed_id (Some catalog_db)
    = raise (HTTPException 404 "Not found")
  ∧ get_product sample_runtime malformed_id (Some catalog_db)
    = raise (HTTPException 400 "Invalid id")
  ∧ get_product sample_runtime well_formed_id None
    = raise (HTTPException 404 "Not found")
  ∧ get_product sample_runtime malformed_id None
    = raise (HTTPException 404 "Not found").
Proof.
  assert (Habsent : ∀ doc, doc ∈ collection catalog_db "product" →
                           _id doc ≠ well_formed_id).
  { intros doc Hdoc. change (collection catalog_db "product") with
      [{| _id := "65f1c0ffee0123456789aaaa";
          body := ProductDoc [("title", PyStr "Linen shirt");
                              ("price", PyFloat 39.5);
                              ("is_active", PyBool true)] |}] in Hdoc.
    apply list_elem_of_singleton in Hdoc as ->. discriminate. }
  split; [reflexivity|]. split; [reflexivity|]. split; [exact Habsent|].
  split; [reflexivity|].
  exact (get_product_errors sample_runtime catalog_db well_formed_id
           well_formed_id malformed_id eq_refl eq_refl Habsent eq_refl).
Defined.

(** C3, as stated, fails: the price of the item is [null], which [float]
    does not convert, and the checkout raises [TypeError], not
    [ValidationError]. *)
Lemma checkout_null_price_raises_type_error :
  item_price sample_runtime null_price_item = None
  ∧ checkout sample_runtime (sample_payload null_price_cart "cod")
      (Some sample_db)
    = (inl TypeError, Some sample_db).
Proof. split; reflexivity. Qed.

(** [checkout_rejects_invalid_item] on a cart whose second item has
    quantity 0. *)
Lemma checkout_rejects_invalid_item_witness :
  sample_item "p2" 5.00 0
  ∈ CheckoutPayload.items (sample_payload mixed_cart "cod")
  ∧ ¬ item_valid sample_runtime (sample_item "p2" 5.00 0)
  ∧ ∃ e, checkout sample_runtime (sample_payload mixed_cart "cod")
           (Some sample_db)
         = (inl e, Some sample_db)
         ∧ match mapM (line_total sample_runtime)
                   (CheckoutPayload.items (sample_payload mixed_cart "cod")) with
           | inr _ => e = ValidationError
           | inl e' => e = e' ∧ pricing_error e
           end.
Proof.
  assert (Hin : sample_item "p2" 5.00 0
                ∈ CheckoutPayload.items (sample_payload mixed_cart "cod"))
    by (right; left).
  assert (Hbad : ¬ item_valid sample_runtime (sample_item "p2" 5.00 0)).
  { intros [(z & Hz & Hle) _]. vm_compute in Hz. injection Hz as <-. lia. }
  split; [exact Hin|]. split; [exact Hbad|].
  exact (checkout_rejects_invalid_item sample_runtime
           (sample_payload mixed_cart "cod") (Some sample_db)
           (sample_item "p2" 5.00 0) Hin Hbad).
Defined.

Lemma rounding_cart_valid :
  Forall (item_valid text_runtime) rounding_cart
  ∧ Forall (text_agrees text_runtime) rounding_cart.
Proof.
  split.
  - repeat constructor; (eexists; split; [reflexivity|done]).
  - repeat constructor; intros s x H; try discriminate H; by intros ?.
Qed.

(** [checkout_total] on a cart of three lines, 3 x 5, 0.579 and 2 x 1.313,
    with an int price, a price given as text and a float quantity: the
    subtotal is 18.204999999999998 and the total 18.2. *)
Lemma checkout_total_witness :
  CheckoutPayload.items (sample_payload rounding_cart "cod") ≠ []
  ∧ Forall (item_valid text_runtime)
      (CheckoutPayload.items (sample_payload rounding_cart "cod"))
  ∧ Forall (text_agrees text_runtime)
      (CheckoutPayload.items (sample_payload rounding_cart "cod"))
  ∧ checkout_pricing text_runtime
      (CheckoutPayload.items (sample_payload rounding_cart "cod"))
    = inr (18.204999999999998, 0, 18.2)%float
  ∧ checkout text_runtime (sample_payload rounding_cart "cod")
      (Some sample_db)
    = (inr rounding_response, Some (sample_db_with rounding_order))
  ∧ ∃ lines,
      Forall2 (validated text_runtime)
        (CheckoutPayload.items (sample_payload rounding_cart "cod")) lines
      ∧ (Exists (λ line : float * Z, is_infinity (Float.of_Z line.2) = true)
           lines
         ∧ (∀ db, checkout text_runtime (sample_payload rounding_cart "cod")
                    db
                  = (inl OverflowError, db))
         ∨ ∃ subtotal total,
             let products :=
               (λ line : float * Z, (line.1 * Float.of_Z line.2)%float)
               <$> lines in
             checkout_pricing text_runtime
               (CheckoutPayload.items (sample_payload rounding_cart "cod"))
             = inr (subtotal, 0%float, total)
             ∧ subtotal
               = (if compensated_sum text_runtime
                  then compensated_result
                         (fold_left compensated_step (tail products)
                            ((0 + hd 0 products)%float, 0%float))
                  else fold_left PrimFloat.add products 0%float)
             ∧ rounded_to 2 (subtotal + 0) total
             ∧ ∀ db,
                 (∃ resp db',
                    checkout text_runtime (sample_payload rounding_cart "cod")
                      db
                    = (inr resp, db')
                    ∧ CheckoutResponse.total resp = total)
                 ∨ (∃ e,
                      checkout text_runtime
                        (sample_payload rounding_cart "cod") db
                      = (inl e, db)
                      ∧ (e = ValidationError ∨ e = StoreError))).
Proof.
  assert (Hne : CheckoutPayload.items (sample_payload rounding_cart "cod")
                ≠ []) by discriminate.
  split; [exact Hne|].
  split; [exact (proj1 rounding_cart_valid)|].
  split; [exact (proj2 rounding_cart_valid)|].
  split; [reflexivity|].
  split; [vm_compute; reflexivity|].
  exact (checkout_total text_runtime (sample_payload rounding_cart "cod")
           Hne (proj1 rounding_cart_valid) (proj2 rounding_cart_valid)).
Defined.

(** [checkout_payment_stub] on the sample cart paid by card. *)
Lemma checkout_payment_stub_witness :
  checkout sample_runtime (sample_payload sample_cart "stripe")
    (Some sample_db)
  = (inr stripe_response, Some (sample_db_with stripe_order))
  ∧ ("stripe" = "stripe" ∨ "stripe" = "cod")
  ∧ ("stripe" = "stripe" →
     CheckoutResponse.payment stripe_response !! "status"
     = Some "requires_action"
     ∧ CheckoutResponse.payment stripe_response !! "client_secret"
       = Some "cs_test_65f1c0ff"
     ∧ "cs_test_65f1c0ff" ≠ EmptyString)
  ∧ ("stripe" = "cod" →
     CheckoutResponse.payment stripe_response !! "status" = Some "pending"
     ∧ CheckoutResponse.payment stripe_response !! "client_secret" = None)
  ∧ ∃ order, last_document (Some (sample_db_with stripe_order)) "order"
             = Some {| _id := sample_order_id; body := OrderDoc order |}.
Proof.
  split; [exact checkout_sample_stripe|].
  exact (checkout_payment_stub sample_runtime
           (sample_payload sample_cart "stripe") (Some sample_db)
           stripe_response (Some (sample_db_with stripe_order))
           checkout_sample_stripe).
Defined.


(** * More on the checkout *)

Section CheckoutMore.

Context (rt : Runtime).

Lemma Order_new_inr_fields user_id items subtotal shipping total payment_method
    shipping_address email order :
  Order_new rt user_id items subtotal shipping total payment_method
    shipping_address email = inr order →
  ∃ cart pm address em,
    mapM (CartItem_validate rt) items = Some cart
    ∧ (0 <=? subtotal)%float = true
    ∧ (0 <=? total)%float = true
    ∧ PaymentMethod.validate payment_method = Some pm
    ∧ Address_validate shipping_address = Some address
    ∧ order = Order.mk user_id cart subtotal shipping total
                OrderStatus.pending pm PaymentStatus.pending None address em.
Proof.
  unfold Order_new. rewrite from_option_inr.
  intros (cart & Hcart & H)%bind_Some.
  apply bind_Some in H as (? & [-> Hsub]%ge_float_Some & H).
  apply bind_Some in H as (? & [-> Htot]%ge_float_Some & H).
  apply bind_Some in H as (pm & Hpm & H).
  apply bind_Some in H as (address & Haddr & H).
  apply bind_Some in H as (em & _ & [= <-]).
  by exists cart, pm, address, em.
Qed.

Lemma Order_new_is_inr user_id items subtotal shipping total payment_method
    shipping_address email :
  (∀ order, Order_new rt user_id items subtotal shipping total payment_method
              shipping_address email ≠ inr order) →
  Order_new rt user_id items subtotal shipping total payment_method
    shipping_address email = inl ValidationError.
Proof.
  intros H.
  destruct (Order_new rt user_id items subtotal shipping total payment_method
              shipping_address email) as [e|order] eqn:Horder.
  - by rewrite (Order_new_inl _ _ _ _ _ _ _ _ _ _ Horder).
  - by destruct (H order).
Qed.

(** What a checkout does whose order cannot be built. *)
Lemma checkout_without_order payload db :
  (∀ total order, checkout_order rt payload ≠ inr (total, order)) →
  ∃ e, checkout rt payload db = (inl e, db) ∧ checkout_error e.
Proof.
  intros Hnone. unfold checkout, checkout_error.
  destruct (CheckoutPayload.items payload) as [|i items] eqn:Hitems;
    [eauto|].
  destruct (checkout_order rt payload) as [e|[total order]] eqn:Horder;
    [|by destruct (Hnone total order)].
  exists e. split; [done|]. right.
  unfold checkout_order in Horder.
  apply bind_inl in Horder as [Hp|([[subtotal shipping] total] & Hp & H)].
  - left. apply checkout_pricing_inl, mapM_inl in Hp as (x & _ & Hx).
    by eapply line_total_error.
  - right. apply bind_inl in H as [H|(order & _ & ?)]; [|done].
    by eapply Order_new_inl.
Qed.

Lemma create_document_other name data db name' :
  name ≠ name' →
  stored (create_document name data db).2 name' = stored db name'.
Proof.
  intros Hne. unfold create_document. destruct db as [d|]; [|done].
  destruct (up d); [|done]. simpl. unfold collection at 1. simpl.
  by rewrite lookup_insert_ne.
Qed.

(** X1: a checkout that fails has raised [HTTPException(400, "No items")],
    which it does exactly for the empty cart, or an error of the pricing, or
    pydantic's [ValidationError], or it has failed in the store; in the
    first three cases the store is as it was. *)
Theorem checkout_failure payload db e db' :
  checkout rt payload db = (inl e, db') →
  e = StoreError
  ∨ db' = db
    ∧ (e = HTTPException 400 "No items" ∧ CheckoutPayload.items payload = []
       ∨ CheckoutPayload.items payload ≠ []
         ∧ (pricing_error e ∨ e = ValidationError)).
Proof.
  unfold checkout.
  destruct (CheckoutPayload.items payload) as [|i items] eqn:Hitems.
  { intros [= <- <-]. right. split; [done|]. by left. }
  destruct (checkout_order rt payload) as [e'|[total order]] eqn:Horder.
  - intros [= <- <-]. right. split; [done|]. right. split; [done|].
    unfold checkout_order in Horder.
    apply bind_inl in Horder as [Hp|([[subtotal shipping] total] & Hp & H)].
    + left. apply checkout_pricing_inl, mapM_inl in Hp as (x & _ & Hx).
      by eapply line_total_error.
    + right. apply bind_inl in H as [H|(order & _ & ?)]; [|done].
      by eapply Order_new_inl.
  - unfold create_document. destruct db as [d|]; [|intros [= <- _]; by left].
    destruct (up d); [done|intros [= <- _]; by left].
Qed.

(** X2: whatever its outcome, a checkout leaves every collection other than
    [order] as it was; in particular it changes no product. *)
Theorem checkout_other_collections payload db name :
  name ≠ "order" →
  stored (checkout rt payload db).2 name = stored db name.
Proof.
  intros Hne. unfold checkout.
  destruct (CheckoutPayload.items payload) as [|i items]; [done|].
  destruct (checkout_order rt payload) as [e|[total order]]; [done|].
  pose proof (create_document_other "order" (OrderDoc order) db name) as H.
  destruct (create_document "order" (OrderDoc order) db) as [[e|oid] db''];
    simpl in *; by apply H.
Qed.

(** X3: the order that a checkout stores keeps the invariants of the schema:
    its subtotal and its total are at least 0, each of its items has a
    quantity of at least 1 and a price of at least 0, its status is
    [pending], it names no user and no transaction, and its payment method
    is the one of the request. *)
Theorem checkout_stored_order_invariants payload db resp db' :
  checkout rt payload db = (inr resp, db') →
  ∃ order,
    last_document db' "order"
    = Some {| _id := CheckoutResponse.order_id resp; body := OrderDoc order |}
    ∧ (0 <=? Order.subtotal order)%float = true
    ∧ (0 <=? Order.total order)%float = true
    ∧ Forall (λ c, 1 ≤ CartItem.quantity c
                   ∧ (0 <=? CartItem.price c)%float = true)
        (Order.items order)
    ∧ Order.status order = OrderStatus.pending
    ∧ Order.user_id order = None
    ∧ Order.transaction_id order = None
    ∧ PaymentMethod.validate (CheckoutPayload.payment_method payload)
      = Some (Order.payment_method order).
Proof.
  intros (d & d' & lines & order & _ & -> & _ & Horder & _ & Hd')
           %checkout_inr_order.
  exists order. split; [by eapply last_document_snoc|].
  apply Order_new_inr_fields in Horder
    as (cart & pm & address & em & Hcart & Hsub & Htot & Hpm & _ & ->).
  simpl. repeat (split; [done|]). split; [|done].
  apply mapM_Some in Hcart. clear -Hcart.
  induction Hcart as [|i c items cart Hc _ IH]; constructor; [|done].
  apply CartItem_validate_Some in Hc. tauto.
Qed.

Lemma CartItem_validate_product_id i c :
  CartItem_validate rt i = Some c →
  dict_get i "product_id" = Some (PyStr (CartItem.product_id c)).
Proof.
  unfold CartItem_validate.
  intros (product_id & Hid & H)%bind_Some.
  apply bind_Some in H as (quantity & _ & H).
  apply bind_Some in H as (price & _ & H).
  apply bind_Some in H as (title & _ & H).
  apply bind_Some in H as (variant & _ & H).
  apply bind_Some in H as (image & _ & [= <-]). simpl.
  unfold required in Hid. apply bind_Some in Hid as (v & -> & Hv).
  by destruct v; try discriminate; injection Hv as ->.
Qed.

(** X4: the stored order lists the items of the cart one for one and in the
    order of the cart, each with the product identifier of its cart item and
    with the quantity and the price that the schema reads from it. *)
Theorem checkout_stored_items payload db resp db' :
  checkout rt payload db = (inr resp, db') →
  ∃ order,
    last_document db' "order"
    = Some {| _id := CheckoutResponse.order_id resp; body := OrderDoc order |}
    ∧ Forall2
        (λ i c, dict_get i "product_id" = Some (PyStr (CartItem.product_id c))
                ∧ item_quantity rt i = Some (CartItem.quantity c)
                ∧ item_price rt i = Some (CartItem.price c))
        (CheckoutPayload.items payload) (Order.items order).
Proof.
  intros (d & d' & lines & order & _ & -> & _ & Horder & _ & Hd')
           %checkout_inr_order.
  exists order. split; [by eapply last_document_snoc|].
  apply Order_new_inr_fields in Horder
    as (cart & pm & address & em & Hcart & _ & _ & _ & _ & ->).
  simpl. apply mapM_Some in Hcart.
  eapply Forall2_impl; [exact Hcart|]. intros i c Hc. simpl in Hc.
  split; [by apply CartItem_validate_product_id|].
  apply CartItem_validate_Some in Hc. tauto.
Qed.

(** The line total of an item is the product of the price and the quantity
    that its validation stores. *)
Lemma line_total_validated i c :
  CartItem_validate rt i = Some c →
  text_agrees rt i →
  ∀ product, line_total rt i = inr product →
  product = (CartItem.price c * Float.of_Z (CartItem.quantity c))%float.
Proof.
  intros (Hq & _ & Hp & _)%CartItem_validate_Some Htext product.
  rewrite (line_total_reads rt i (CartItem.price c, CartItem.quantity c)
             (validated_reads rt i (_, _) Hp Hq Htext)).
  simpl. by destruct (is_infinity _); [|intros [= <-]].
Qed.

Lemma mapM_line_total_validated items cart :
  Forall2 (λ i c, CartItem_validate rt i = Some c) items cart →
  Forall (text_agrees rt) items →
  ∀ products, mapM (line_total rt) items = inr products →
  products
  = (λ c, (CartItem.price c * Float.of_Z (CartItem.quantity c))%float)
    <$> cart.
Proof.
  induction 1 as [|i c items cart Hc _ IH]; intros Htext products.
  - by intros [= <-].
  - apply Forall_cons in Htext as [Hi Hitems].
    rewrite mapM_result_cons.
    intros (product & Hproduct & H)%bind_inr.
    apply bind_inr in H as (products' & Hproducts & [= <-]).
    rewrite (line_total_validated i c Hc Hi product Hproduct).
    by rewrite (IH Hitems products' Hproducts).
Qed.

(** X5: when the interpreter reads the texts of the cart as pydantic does,
    the subtotal of the order that a checkout stores is the sum, over the
    items stored in that order, of the products price x quantity (the floats
    added from left to right from 0.0, with the compensation of [sum] on
    CPython 3.12 and later), and its total is that sum rounded to 2 decimal
    places, ties to even: the amounts computed from the raw cart are those
    of the validated items stored beside them. *)
Theorem checkout_subtotal_of_stored_items payload db resp db' :
  Forall (text_agrees rt) (CheckoutPayload.items payload) →
  checkout rt payload db = (inr resp, db') →
  ∃ order,
    last_document db' "order"
    = Some {| _id := CheckoutResponse.order_id resp; body := OrderDoc order |}
    ∧ (let products :=
         (λ c, (CartItem.price c * Float.of_Z (CartItem.quantity c))%float)
         <$> Order.items order in
       Order.subtotal order
       = if compensated_sum rt
         then compensated_result
                (fold_left compensated_step (tail products)
                   ((0 + hd 0 products)%float, 0%float))
         else fold_left PrimFloat.add products 0%float)
    ∧ rounded_to 2 (Order.subtotal order + 0) (Order.total order).
Proof.
  intros Htext
    (d & d' & products & order & _ & -> & Hproducts & Horder & Htotal & Hd')
      %checkout_inr_order.
  exists order. split; [by eapply last_document_snoc|].
  apply Order_new_inr_fields in Horder
    as (cart & pm & address & em & Hcart & _ & _ & _ & _ & ->).
  apply mapM_Some in Hcart.
  rewrite (mapM_line_total_validated _ _ Hcart Htext _ Hproducts) in Htotal.
  simpl. split.
  - rewrite (mapM_line_total_validated _ _ Hcart Htext _ Hproducts).
    destruct (compensated_sum rt);
      [apply py_sum_compensated|apply py_sum_plain].
  - rewrite Htotal.
    rewrite (mapM_line_total_validated _ _ Hcart Htext _ Hproducts).
    apply py_round_rounded_to.
Qed.

(** X6: a checkout whose payment method is neither ["stripe"] nor ["cod"]
    answers nothing and stores nothing: it raises before the write, with
    [HTTPException(400, "No items")], an error of the pricing, or pydantic's
    [ValidationError]. *)
Theorem checkout_unknown_payment_method payload db :
  CheckoutPayload.payment_method payload ≠ "stripe" →
  CheckoutPayload.payment_method payload ≠ "cod" →
  ∃ e, checkout rt payload db = (inl e, db) ∧ checkout_error e.
Proof.
  intros Hstripe Hcod. apply checkout_without_order.
  intros total order (subtotal & shipping & _ & Horder)%checkout_order_inr.
  apply Order_new_inr in Horder as (_ & _ & _ & _ & _ & _ & Hpm).
  apply PaymentMethod_validate_Some in Hpm as [[? _]|[? _]]; done.
Qed.

(** X7: a checkout whose shipping address lacks one of [full_name], [line1],
    [city], [state] and [postal_code] answers nothing and stores nothing. *)
Theorem checkout_incomplete_address payload db key :
  key ∈ address_required →
  dict_get (CheckoutPayload.shipping_address payload) key = None →
  ∃ e, checkout rt payload db = (inl e, db) ∧ checkout_error e.
Proof.
  intros Hkey Hnone. apply checkout_without_order.
  intros total order (subtotal & shipping & _ & Horder)%checkout_order_inr.
  apply Order_new_inr_fields in Horder
    as (cart & pm & address & em & _ & _ & _ & _ & Haddr & _).
  unfold Address_validate in Haddr.
  apply bind_Some in Haddr as (full_name & H1 & Haddr).
  apply bind_Some in Haddr as (line1 & H2 & Haddr).
  apply bind_Some in Haddr as (line2 & _ & Haddr).
  apply bind_Some in Haddr as (city & H3 & Haddr).
  apply bind_Some in Haddr as (state & H4 & Haddr).
  apply bind_Some in Haddr as (postal_code & H5 & _).
  unfold required in *. unfold address_required in Hkey.
  repeat (apply elem_of_cons in Hkey as [->|Hkey];
          [by rewrite Hnone in *|]).
  by apply elem_of_nil in Hkey.
Qed.

End CheckoutMore.

(** * More on the catalog *)

Section CatalogMore.

Context (rt : Runtime).

Lemma filter_sublist {A} (f : A → bool) (l : list A) :
  List.filter f l `sublist_of` l.
Proof.
  induction l as [|x l IH]; simpl; [constructor|].
  destruct (f x); by constructor.
Qed.

Lemma filter_Forall {A} (f : A → bool) (l : list A) :
  Forall (λ x, f x = true) (List.filter f l).
Proof.
  induction l as [|x l IH]; simpl; [constructor|].
  destruct (f x) eqn:Hx; [by constructor|done].
Qed.

(** X8: what [list_products] answers from a store is the public form of at
    most 60 stored products, each of which the store matched against the
    query of the request, in the order in which the store holds them. *)
Theorem list_products_answer q category size color min_price max_price d docs :
  list_products rt q category size color min_price max_price (Some d)
  = inr docs →
  ∃ found,
    docs = to_public <$> found
    ∧ (length docs ≤ 60)%nat
    ∧ found `sublist_of` collection d "product"
    ∧ Forall (λ doc, matches rt (products_query q category size color
                                   min_price max_price) doc = true) found.
Proof.
  unfold list_products, find. destruct (up d); [|done]. simpl.
  intros [= <-]. eexists. split; [reflexivity|].
  split; [rewrite length_map, length_take; lia|].
  split.
  - etrans; [apply sublist_take|apply filter_sublist].
  - apply Forall_take, filter_Forall.
Qed.

Lemma find_eqb_Some oid docs doc :
  List.find (λ doc, String.eqb (_id doc) oid) docs = Some doc →
  doc ∈ docs ∧ _id doc = oid.
Proof.
  intros [Hin Heq]%find_some. split; [by apply list_elem_of_In|].
  by apply String.eqb_eq.
Qed.

Lemma find_eqb_None oid docs :
  List.find (λ doc, String.eqb (_id doc) oid) docs = None ↔
  ∀ doc, doc ∈ docs → _id doc ≠ oid.
Proof.
  split.
  - intros Hnone doc Hin%list_elem_of_In Heq.
    apply (find_none _ _ Hnone) in Hin. apply String.eqb_neq in Hin. done.
  - intros Hall. destruct (List.find _ docs) as [doc|] eqn:Hfind; [|done].
    apply find_eqb_Some in Hfind as [Hin Heq]. by destruct (Hall doc).
Qed.

(** The lookup on a store that answers, by the cases of the identifier. *)
Lemma get_product_up d product_id :
  up d = true →
  get_product rt product_id (Some d)
  = match ObjectId_of_str rt product_id with
    | None => raise (HTTPException 400 "Invalid id")
    | Some oid =>
        match List.find (λ doc, String.eqb (_id doc) oid)
                (collection d "product") with
        | None => raise (HTTPException 404 "Not found")
        | Some doc => inr (to_public doc)
        end
    end.
Proof.
  intros Hup. unfold get_product, ObjectId, find_one. rewrite Hup.
  by destruct (ObjectId_of_str rt product_id).
Qed.

(** X9: whatever the identifier and the store, [get_product] either answers
    the public form of a stored product whose identifier is the requested
    one, as [ObjectId] reads it, or raises 404 "Not found" or 400
    "Invalid id"; no other exception leaves it. *)
Theorem get_product_outcomes product_id db :
  (∃ d oid doc,
     db = Some d
     ∧ ObjectId_of_str rt product_id = Some oid
     ∧ doc ∈ collection d "product"
     ∧ get_product rt product_id db = inr (to_public doc)
     ∧ id (to_public doc) = oid)
  ∨ get_product rt product_id db = raise (HTTPException 404 "Not found")
  ∨ get_product rt product_id db = raise (HTTPException 400 "Invalid id").
Proof.
  destruct db as [d|]; [|by right; left].
  destruct (up d) eqn:Hup.
  - rewrite (get_product_up d product_id Hup).
    destruct (ObjectId_of_str rt product_id) as [oid|]; [|by right; right].
    destruct (List.find _ _) as [doc|] eqn:Hfind; [|by right; left].
    apply find_eqb_Some in Hfind as [Hin Heq].
    left. by exists d, oid, doc.
  - right; right. by apply get_product_store_down.
Qed.

End CatalogMore.

(** * Admin and auth *)

Section AdminMore.

Context (rt : Runtime).
Context (set_fields : Entity → Dict → Result Entity).

(** *** Collections *)

Lemma collection_with_collection d name docs :
  collection (with_collection d name docs) name = docs.
Proof. unfold collection. simpl. by rewrite lookup_insert_eq. Qed.

Lemma collection_with_collection_ne d name docs name' :
  name ≠ name' → collection (with_collection d name docs) name' = collection d name'.
Proof. intros Hne. unfold collection. simpl. by rewrite lookup_insert_ne. Qed.

Lemma find_remove_first_ne oid oid' docs :
  oid ≠ oid' →
  List.find (λ doc, String.eqb (_id doc) oid') (remove_first oid docs)
  = List.find (λ doc, String.eqb (_id doc) oid') docs.
Proof.
  intros Hne. induction docs as [|doc docs IH]; [done|]. simpl.
  destruct (String.eqb_spec (_id doc) oid) as [Heq|_].
  - destruct (String.eqb_spec (_id doc) oid') as [Heq'|_]; [congruence|done].
  - simpl. by rewrite IH.
Qed.

Lemma find_remove_first oid docs :
  NoDup (_id <$> docs) →
  List.find (λ doc, String.eqb (_id doc) oid) (remove_first oid docs) = None.
Proof.
  induction docs as [|doc docs IH]; [done|]. simpl.
  intros [Hnotin Hnodup]%NoDup_cons.
  destruct (String.eqb_spec (_id doc) oid) as [Heq|Hne].
  - apply find_eqb_None. intros doc' Hin Heq'. apply Hnotin.
    rewrite Heq, <- Heq'. by apply list_elem_of_fmap_2.
  - simpl. destruct (String.eqb_spec (_id doc) oid); [done|]. by apply IH.
Qed.

Lemma remove_first_snoc oid docs doc :
  (∀ doc', doc' ∈ docs → _id doc' ≠ oid) →
  _id doc = oid →
  remove_first oid (docs ++ [doc]) = docs.
Proof.
  intros Hfresh Hdoc. induction docs as [|doc' docs IH]; simpl.
  - by rewrite Hdoc, String.eqb_refl.
  - destruct (String.eqb_spec (_id doc') oid) as [Heq|_].
    + destruct (Hfresh doc'); [left|done].
    + rewrite IH; [done|]. intros doc'' Hin. apply Hfresh. by right.
Qed.

Lemma find_snoc oid docs doc :
  (∀ doc', doc' ∈ docs → _id doc' ≠ oid) →
  _id doc = oid →
  List.find (λ doc, String.eqb (_id doc) oid) (docs ++ [doc]) = Some doc.
Proof.
  intros Hfresh Hdoc. induction docs as [|doc' docs IH]; simpl.
  - by rewrite Hdoc, String.eqb_refl.
  - destruct (String.eqb_spec (_id doc') oid) as [Heq|_].
    + destruct (Hfresh doc'); [left|done].
    + apply IH. intros doc'' Hin. apply Hfresh. by right.
Qed.

Lemma length_remove_first oid docs doc :
  List.find (λ doc, String.eqb (_id doc) oid) docs = Some doc →
  S (length (remove_first oid docs)) = length docs.
Proof.
  induction docs as [|doc' docs IH]; [done|]. simpl.
  destruct (String.eqb (_id doc') oid); [done|]. simpl. intros H.
  by rewrite IH.
Qed.


Lemma find_replace_first_ne oid oid' new_body docs :
  oid ≠ oid' →
  List.find (λ doc, String.eqb (_id doc) oid') (replace_first oid new_body docs)
  = List.find (λ doc, String.eqb (_id doc) oid') docs.
Proof.
  intros Hne. induction docs as [|doc docs IH]; [done|]. simpl.
  destruct (String.eqb_spec (_id doc) oid) as [Heq|_]; simpl.
  - destruct (String.eqb_spec (_id doc) oid') as [Heq'|_]; [congruence|done].
  - by rewrite IH.
Qed.


(** *** Creating a product *)

Lemma Product_new_inr payload product :
  Product_new rt payload = inr product →
  (0 <=? ProductIn.price payload)%float = true
  ∧ ProductIn.images payload = Some (Product.images product)
  ∧ ProductIn.variants payload
    ≫= mapM (λ v, ProductVariant_validate rt (PyDict v))
    = Some (Product.variants product)
  ∧ ProductIn.tags payload = Some (Product.tags product)
  ∧ Product.title product = ProductIn.title payload
  ∧ Product.description product = ProductIn.description payload
  ∧ Product.category product = ProductIn.category payload
  ∧ Product.price product = ProductIn.price payload
  ∧ Product.rating product = 0%float
  ∧ Product.rating_count product = 0
  ∧ Product.is_active product = true.
Proof.
  unfold Product_new. rewrite from_option_inr.
  intros (price & [-> Hprice]%ge_float_Some & H)%bind_Some.
  apply bind_Some in H as (images & Himages & H).
  apply bind_Some in H as (variants & Hvariants & H).
  apply bind_Some in H as (tags & Htags & [= <-]).
  done.
Qed.

Lemma Product_new_inl payload e :
  Product_new rt payload = inl e → e = ValidationError.
Proof.
  unfold Product_new.
  match goal with |- from_option _ _ ?o = _ → _ => destruct o end;
    [done|by intros [= <-]].
Qed.

Lemma admin_create_product_invalid payload db :
  (∀ product, Product_new rt payload ≠ inr product) →
  admin_create_product rt payload db = (inl ValidationError, db).
Proof.
  intros Hnone. unfold admin_create_product.
  destruct (Product_new rt payload) as [e|product] eqn:Hnew.
  - by rewrite (Product_new_inl _ _ Hnew).
  - by destruct (Hnone product).
Qed.

(** X10: a product payload that leaves [images], [variants] or [tags] unset
    is refused: the dump of the payload passes the unset field as [None],
    which is no list, so [Product] raises pydantic's [ValidationError] and
    nothing is stored. *)
Theorem admin_create_product_unset_list payload db :
  ProductIn.images payload = None
  ∨ ProductIn.variants payload = None
  ∨ ProductIn.tags payload = None →
  admin_create_product rt payload db = (inl ValidationError, db).
Proof.
  intros Hunset. apply admin_create_product_invalid.
  intros product (_ & Hi & Hv & Ht & _)%Product_new_inr.
  destruct Hunset as [H|[H|H]]; rewrite H in *; discriminate.
Qed.

(** X11: a product payload whose price is not at least 0, a negative number
    or a NaN, is refused with pydantic's [ValidationError] and nothing is
    stored. *)
Theorem admin_create_product_bad_price payload db :
  (0 <=? ProductIn.price payload)%float = false →
  admin_create_product rt payload db = (inl ValidationError, db).
Proof.
  intros Hprice. apply admin_create_product_invalid.
  intros product (Hge & _)%Product_new_inr. congruence.
Qed.

Lemma create_document_inr_store name data db oid db' :
  create_document name data db = (inr oid, db') →
  ∃ d, db = Some d ∧ up d = true ∧ oid = id_of d (inserted d)
       ∧ db' = Some {| up := true;
                       collections :=
                         <[name := (collection d name
                                    ++ [{| _id := oid; body := data |}])%list]>
                           (collections d);
                       id_of := id_of d;
                       inserted := S (inserted d) |}.
Proof.
  unfold create_document. destruct db as [d|]; [|done].
  destruct (up d) eqn:Hup; [|done].
  intros [= <- <-]. by exists d.
Qed.

(** What a creation that answers has stored. *)
Lemma admin_create_product_inr payload db resp db' :
  admin_create_product rt payload db = (inr resp, db') →
  ∃ d d' new_id product,
    db = Some d ∧ db' = Some d' ∧ up d' = true
    ∧ resp = {[ "id" := new_id ]}
    ∧ Product_new rt payload = inr product
    ∧ collection d' "product"
      = (collection d "product"
         ++ [{| _id := new_id; body := ProductDoc (Product_dump product) |}])%list
    ∧ ∀ name, name ≠ "product" → collection d' name = collection d name.
Proof.
  unfold admin_create_product.
  destruct (Product_new rt payload) as [e|product] eqn:Hnew; [done|].
  destruct (create_document _ _ db) as [[e|new_id] db''] eqn:Hcreate; [done|].
  intros [= <- <-].
  apply create_document_inr_store in Hcreate as (d & -> & Hup & Hid & ->).
  eexists d, _, new_id, product. repeat (split; [done|]). split.
  - unfold collection at 1. simpl. by rewrite lookup_insert_eq.
  - intros name Hne. unfold collection at 1. simpl.
    by rewrite lookup_insert_ne.
Qed.



(** *** Deleting a product *)

Lemma admin_delete_product_up d product_id :
  up d = true →
  admin_delete_product rt product_id (Some d)
  = match ObjectId_of_str rt product_id with
    | None => (raise (HTTPException 400 "Invalid id"), Some d)
    | Some oid =>
        match List.find (λ doc, String.eqb (_id doc) oid)
                (collection d "product") with
        | None => (raise (HTTPException 404 "Not found"), Some d)
        | Some _ =>
            (inr {[ "deleted" := true ]},
             Some (with_collection d "product"
                     (remove_first oid (collection d "product"))))
        end
    end.
Proof.
  intros Hup. unfold admin_delete_product, ObjectId, delete_one. rewrite Hup.
  destruct (ObjectId_of_str rt product_id) as [oid|]; [|done]. simpl.
  by destruct (List.find _ _).
Qed.

Lemma admin_delete_product_down d product_id :
  up d = false →
  admin_delete_product rt product_id (Some d)
  = (raise (HTTPException 400 "Invalid id"), Some d).
Proof.
  intros Hup. unfold admin_delete_product, ObjectId, delete_one. rewrite Hup.
  by destruct (ObjectId_of_str rt product_id).
Qed.

(** X13: a deletion that fails leaves the store as it was, and has raised
    500 "DB not ready", which it does exactly when there is no store, or 400
    "Invalid id", or 404 "Not found", the latter only for a well-formed
    identifier that no product of the store has. *)
Theorem admin_delete_product_failure product_id db e db' :
  admin_delete_product rt product_id db = (inl e, db') →
  db' = db
  ∧ (db = None ∧ e = HTTPException 500 "DB not ready"
     ∨ is_Some db ∧ e = HTTPException 400 "Invalid id"
     ∨ is_Some db ∧ e = HTTPException 404 "Not found"
       ∧ ∃ oid, ObjectId_of_str rt product_id = Some oid
                ∧ ∀ doc, doc ∈ stored db "product" → _id doc ≠ oid).
Proof.
  destruct db as [d|]; [|intros [= <- <-]; split; [done|by left]].
  destruct (up d) eqn:Hup.
  - rewrite (admin_delete_product_up d product_id Hup).
    destruct (ObjectId_of_str rt product_id) as [oid|] eqn:Hoid.
    + destruct (List.find _ _) as [doc|] eqn:Hfind; [done|].
      intros [= <- <-]. split; [done|]. right; right.
      split; [done|]. split; [done|]. exists oid. split; [done|].
      by apply find_eqb_None.
    + intros [= <- <-]. split; [done|]. right; left. by split.
  - rewrite (admin_delete_product_down d product_id Hup).
    intros [= <- <-]. split; [done|]. right; left. by split.
Qed.

(** X14: a deletion that answers has removed one product, the first of the
    store under the requested identifier, and nothing else: the other
    collections are as they were, orders that name the product included, and
    every product under another identifier is looked up as before. *)
Theorem admin_delete_product_removes_one product_id db resp db' :
  admin_delete_product rt product_id db = (inr resp, db') →
  resp = {[ "deleted" := true ]}
  ∧ ∃ oid doc,
      ObjectId_of_str rt product_id = Some oid
      ∧ doc ∈ stored db "product" ∧ _id doc = oid
      ∧ stored db' "product" = remove_first oid (stored db "product")
      ∧ S (length (stored db' "product")) = length (stored db "product")
      ∧ (∀ name, name ≠ "product" → stored db' name = stored db name)
      ∧ (∀ other oid', ObjectId_of_str rt other = Some oid' → oid' ≠ oid →
           get_product rt other db' = get_product rt other db).
Proof.
  destruct db as [d|]; [|done].
  destruct (up d) eqn:Hup;
    [|by rewrite (admin_delete_product_down d product_id Hup)].
  rewrite (admin_delete_product_up d product_id Hup).
  destruct (ObjectId_of_str rt product_id) as [oid|] eqn:Hoid; [|done].
  destruct (List.find _ _) as [doc|] eqn:Hfind; [|done].
  intros [= <- <-]. split; [done|]. exists oid, doc.
  destruct (find_eqb_Some _ _ _ Hfind) as [Hin Hid].
  unfold stored. cbn [from_option]. rewrite collection_with_collection.
  repeat (split; [done|]).
  split; [by eapply length_remove_first|].
  split; [intros name Hne; by apply collection_with_collection_ne|].
  intros other oid' Hother Hne.
  rewrite !get_product_up, Hother by done.
  rewrite collection_with_collection.
  by rewrite find_remove_first_ne by done.
Qed.

(** X15: when the products of the store have distinct identifiers, as a
    store keeps them, a product that was deleted is gone: [get_product] of
    its identifier raises 404 "Not found" on the new store, and so does a
    second deletion, which changes nothing. *)
Theorem admin_delete_product_gone product_id db resp db' :
  NoDup (_id <$> stored db "product") →
  admin_delete_product rt product_id db = (inr resp, db') →
  get_product rt product_id db' = raise (HTTPException 404 "Not found")
  ∧ admin_delete_product rt product_id db'
    = (raise (HTTPException 404 "Not found"), db').
Proof.
  intros Hnodup. destruct db as [d|]; [|done].
  unfold stored in Hnodup. cbn [from_option] in Hnodup.
  destruct (up d) eqn:Hup;
    [|by rewrite (admin_delete_product_down d product_id Hup)].
  rewrite (admin_delete_product_up d product_id Hup).
  destruct (ObjectId_of_str rt product_id) as [oid|] eqn:Hoid; [|done].
  destruct (List.find _ _) as [doc|] eqn:Hfind; [|done].
  intros [= <- <-].
  rewrite get_product_up, admin_delete_product_up, Hoid by done.
  rewrite collection_with_collection.
  by rewrite (find_remove_first oid _ Hnodup).
Qed.

(** X16: a product that was just created, under a well-formed identifier
    that no product had before, can be deleted under the answered
    identifier, and the products of the store are then what they were
    before the creation. *)
Theorem admin_create_then_delete payload db resp db' new_id :
  admin_create_product rt payload db = (inr resp, db') →
  resp !! "id" = Some new_id →
  ObjectId_of_str rt new_id = Some new_id →
  (∀ doc, doc ∈ stored db "product" → _id doc ≠ new_id) →
  ∃ db'',
    admin_delete_product rt new_id db' = (inr {[ "deleted" := true ]}, db'')
    ∧ stored db'' "product" = stored db "product".
Proof.
  intros (d & d' & new_id' & product & -> & -> & Hup & -> & _ & Hd' & _)
           %admin_create_product_inr Hid Hoid Hfresh.
  rewrite lookup_singleton_eq in Hid. injection Hid as ->.
  rewrite (admin_delete_product_up d' new_id Hup), Hoid, Hd'.
  rewrite (find_snoc new_id (collection d "product")
             {| _id := new_id; body := ProductDoc (Product_dump product) |}
             Hfresh eq_refl).
  eexists. split; [reflexivity|]. unfold stored. cbn [from_option].
  rewrite collection_with_collection.
  by apply remove_first_snoc.
Qed.

(** *** Updating a product *)

Lemma admin_update_product_down d product_id payload :
  up d = false →
  admin_update_product rt set_fields product_id payload (Some d)
  = (raise (HTTPException 400 "Invalid id"), Some d).
Proof.
  intros Hup. unfold admin_update_product, ObjectId, update_one. rewrite Hup.
  by destruct (ObjectId_of_str rt product_id).
Qed.

Lemma admin_update_product_up d product_id payload :
  up d = true →
  admin_update_product rt set_fields product_id payload (Some d)
  = match ObjectId_of_str rt product_id with
    | None => (raise (HTTPException 400 "Invalid id"), Some d)
    | Some oid =>
        match List.find (λ doc, String.eqb (_id doc) oid)
                (collection d "product") with
        | None => (raise (HTTPException 404 "Not found"), Some d)
        | Some doc =>
            match set_fields (body doc) payload with
            | inl _ => (raise (HTTPException 400 "Invalid id"), Some d)
            | inr new_body =>
                (inr {[ "updated" := true ]},
                 Some (with_collection d "product"
                         (replace_first oid new_body (collection d "product"))))
            end
        end
    end.
Proof.
  intros Hup. unfold admin_update_product, ObjectId, update_one. rewrite Hup.
  destruct (ObjectId_of_str rt product_id) as [oid|]; [|done]. simpl.
  destruct (List.find _ _) as [doc|]; [|done].
  by destruct (set_fields (body doc) payload).
Qed.

(** X17: an update that fails leaves the store as it was, and has raised
    500 "DB not ready", which it does exactly when there is no store, or 400
    "Invalid id", or 404 "Not found", the latter only for a well-formed
    identifier that no product of the store has. *)
Theorem admin_update_product_failure product_id payload db e db' :
  admin_update_product rt set_fields product_id payload db = (inl e, db') →
  db' = db
  ∧ (db = None ∧ e = HTTPException 500 "DB not ready"
     ∨ is_Some db ∧ e = HTTPException 400 "Invalid id"
     ∨ is_Some db ∧ e = HTTPException 404 "Not found"
       ∧ ∃ oid, ObjectId_of_str rt product_id = Some oid
                ∧ ∀ doc, doc ∈ stored db "product" → _id doc ≠ oid).
Proof.
  destruct db as [d|]; [|intros [= <- <-]; split; [done|by left]].
  destruct (up d) eqn:Hup.
  - rewrite (admin_update_product_up d product_id payload Hup).
    destruct (ObjectId_of_str rt product_id) as [oid|] eqn:Hoid.
    + destruct (List.find _ _) as [doc|] eqn:Hfind.
      * destruct (set_fields (body doc) payload); [|done].
        intros [= <- <-]. split; [done|]. right; left. by split.
      * intros [= <- <-]. split; [done|]. right; right.
        split; [done|]. split; [done|]. exists oid. split; [done|].
        by apply find_eqb_None.
    + intros [= <- <-]. split; [done|]. right; left. by split.
  - rewrite (admin_update_product_down d product_id payload Hup).
    intros [= <- <-]. split; [done|]. right; left. by split.
Qed.


(** *** Signing up *)

Lemma User_new_inr name email password_hash user :
  User_new rt name email password_hash = inr user →
  (2 ≤ py_len name ≤ 80)%nat
  ∧ validate_email rt email = Some (User.email user)
  ∧ User.name user = name
  ∧ User.password_hash user = password_hash
  ∧ User.role user = Role.user
  ∧ User.avatar_url user = None
  ∧ User.is_active user = true.
Proof.
  unfold User_new. rewrite from_option_inr.
  intros (name' & Hname & H)%bind_Some.
  apply bind_Some in H as (email' & Hemail & [= <-]).
  destruct (Nat.leb_spec 2 (py_len name));
    destruct (Nat.leb_spec (py_len name) 80);
    simpl in Hname; try done.
  injection Hname as <-. simpl. repeat split; [lia|lia|done].
Qed.

Lemma existing_users_none payload db :
  existing_users rt payload db = inr [] →
  db = None
  ∨ database_bool rt = inr false
  ∨ database_bool rt = inr true
    ∧ ∃ d, db = Some d ∧ up d = true
           ∧ List.filter
               (matches rt {[ "email" := QStr (AuthPayload.email payload) ]})
               (collection d "user") = [].
Proof.
  unfold existing_users. destruct db as [d|]; [|by left].
  intros ([|] & Hbool & H)%bind_inr; [|by right; left].
  right; right. split; [done|]. exists d. unfold find_all in H.
  destruct (up d); [|done]. by injection H as ->.
Qed.

(** X19: a signup that answers has found no user under the address of the
    request, where the handle of the store tested true, and has appended a
    user to the [user] collection under the identifier it answers.  That
    user is named by the name of the request when that is given and not
    empty, and otherwise by what stands before the first ["@"] of the
    address; the name has 2 to 80 characters, the address is the one the
    validation of the requested address answers, the password of the request
    is kept as it is under [password_hash], the role is [user], there is no
    avatar and the account is active.  The answer carries the identifier,
    the address, the name and the role of that user. *)
Theorem signup_stores_user payload db resp db' :
  signup rt payload db = (inr resp, db') →
  ∃ d d' user user_id,
    db = Some d ∧ db' = Some d'
    ∧ (database_bool rt = inr false
       ∨ database_bool rt = inr true
         ∧ List.filter
             (matches rt {[ "email" := QStr (AuthPayload.email payload) ]})
             (collection d "user") = [])
    ∧ collection d' "user"
      = (collection d "user"
         ++ [{| _id := user_id; body := UserDoc user |}])%list
    ∧ resp = {[ "id" := user_id; "email" := User.email user;
                "name" := User.name user; "role" := "user" ]}
    ∧ User.name user
      = match AuthPayload.name payload with
        | Some (String c name) => String c name
        | _ => before_at (AuthPayload.email payload)
        end
    ∧ (2 ≤ py_len (User.name user) ≤ 80)%nat
    ∧ validate_email rt (AuthPayload.email payload) = Some (User.email user)
    ∧ User.password_hash user = AuthPayload.password payload
    ∧ User.role user = Role.user
    ∧ User.avatar_url user = None
    ∧ User.is_active user = true.
Proof.
  unfold signup.
  destruct (existing_users rt payload db) as [e|[|doc docs]] eqn:Hexisting;
    [done| |done].
  destruct (signup_user rt payload) as [e|user] eqn:Huser; [done|].
  destruct (create_document "user" (UserDoc user) db)
    as [[e|user_id] db''] eqn:Hcreate; [done|].
  intros [= <- <-].
  apply create_document_inr in Hcreate as (d & d' & -> & -> & _ & _ & Hd').
  apply User_new_inr in Huser
    as (Hlen & Hemail & Hname & Hpw & Hrole & Havatar & Hactive).
  exists d, d', user, user_id. rewrite Hrole. simpl.
  split; [done|]. split; [done|]. split.
  { apply existing_users_none in Hexisting
      as [?|[?|(? & d0 & [= <-] & _ & ?)]]; [done|by left|right; by split]. }
  split; [done|]. split; [done|]. rewrite Hname.
  split; [by destruct (AuthPayload.name payload) as [[|]|]|done].
Qed.

(** X20: a signup that gives no name, or an empty one, and whose address has
    fewer than 2 characters before its first ["@"], is never answered and
    leaves the store as it was.  It raises what the lookup of the registered
    users raises when that fails, [HTTPException(400, "Email already
    registered")] when the lookup finds a user, and otherwise pydantic's
    [ValidationError]: the name taken from the address is too short for the
    schema. *)
Theorem signup_short_local_part payload db :
  truthy (AuthPayload.name payload) = None →
  (py_len (before_at (AuthPayload.email payload)) < 2)%nat →
  ∃ e, signup rt payload db = (inl e, db)
       ∧ match existing_users rt payload db with
         | inl e' => e = e'
         | inr [] => e = ValidationError
         | inr (_ :: _) => e = HTTPException 400 "Email already registered"
         end.
Proof.
  intros Hname Hshort. unfold signup.
  destruct (existing_users rt payload db) as [e|[|doc docs]]; [by exists e| |].
  - exists ValidationError. split; [|done].
    unfold signup_user, User_new. rewrite Hname. cbn [default].
    assert (Hleb : (2 <=? py_len (before_at (AuthPayload.email payload)))%nat
                   = false)
      by (apply Nat.leb_gt; lia).
    by rewrite Hleb.
  - by eexists.
Qed.

End AdminMore.

(** * More worked examples *)

Lemma checkout_mixed_cart :
  checkout sample_runtime (sample_payload mixed_cart "cod") (Some sample_db)
  = (inl ValidationError, Some sample_db).
Proof. vm_compute. reflexivity. Qed.

(** [checkout_failure] on the cart whose second item has quantity 0. *)
Lemma checkout_failure_witness :
  checkout sample_runtime (sample_payload mixed_cart "cod") (Some sample_db)
  = (inl ValidationError, Some sample_db)
  ∧ (ValidationError = StoreError
     ∨ Some sample_db = Some sample_db
       ∧ (ValidationError = HTTPException 400 "No items"
          ∧ CheckoutPayload.items (sample_payload mixed_cart "cod") = []
          ∨ CheckoutPayload.items (sample_payload mixed_cart "cod") ≠ []
            ∧ (pricing_error ValidationError
               ∨ ValidationError = ValidationError))).
Proof.
  exact (conj checkout_mixed_cart
           (checkout_failure sample_runtime _ _ _ _ checkout_mixed_cart)).
Defined.

(** [checkout_other_collections] on the store that holds one product. *)
Lemma checkout_other_collections_witness :
  "product" ≠ "order"
  ∧ stored (checkout sample_runtime (sample_payload sample_cart "cod")
              (Some catalog_db)).2 "product"
    = stored (Some catalog_db) "product".
Proof.
  assert (Hne : "product" ≠ "order") by discriminate.
  exact (conj Hne
           (checkout_other_collections sample_runtime
              (sample_payload sample_cart "cod") (Some catalog_db) "product"
              Hne)).
Defined.

(** [checkout_stored_order_invariants] on the sample cart paid on
    delivery. *)
Lemma checkout_stored_order_invariants_witness :
  checkout sample_runtime (sample_payload sample_cart "cod") (Some sample_db)
  = (inr cod_response, Some (sample_db_with cod_order))
  ∧ ∃ order,
      last_document (Some (sample_db_with cod_order)) "order"
      = Some {| _id := CheckoutResponse.order_id cod_response;
                body := OrderDoc order |}
      ∧ (0 <=? Order.subtotal order)%float = true
      ∧ (0 <=? Order.total order)%float = true
      ∧ Forall (λ c, 1 ≤ CartItem.quantity c
                     ∧ (0 <=? CartItem.price c)%float = true)
          (Order.items order)
      ∧ Order.status order = OrderStatus.pending
      ∧ Order.user_id order = None
      ∧ Order.transaction_id order = None
      ∧ PaymentMethod.validate
          (CheckoutPayload.payment_method (sample_payload sample_cart "cod"))
        = Some (Order.payment_method order).
Proof.
  exact (conj checkout_sample_cod
           (checkout_stored_order_invariants sample_runtime _ _ _ _
              checkout_sample_cod)).
Defined.

(** [checkout_stored_items] on the sample cart paid by card. *)
Lemma checkout_stored_items_witness :
  checkout sample_runtime (sample_payload sample_cart "stripe")
    (Some sample_db)
  = (inr stripe_response, Some (sample_db_with stripe_order))
  ∧ ∃ order,
      last_document (Some (sample_db_with stripe_order)) "order"
      = Some {| _id := CheckoutResponse.order_id stripe_response;
                body := OrderDoc order |}
      ∧ Forall2
          (λ i c,
             dict_get i "product_id" = Some (PyStr (CartItem.product_id c))
             ∧ item_quantity sample_runtime i = Some (CartItem.quantity c)
             ∧ item_price sample_runtime i = Some (CartItem.price c))
          (CheckoutPayload.items (sample_payload sample_cart "stripe"))
          (Order.items order).
Proof.
  exact (conj checkout_sample_stripe
           (checkout_stored_items sample_runtime _ _ _ _
              checkout_sample_stripe)).
Defined.

(** [checkout_subtotal_of_stored_items] on a cart of three lines, 2 x 1.2,
    0.579 and 2 x 1.313, on an interpreter whose sum is compensated: the
    stored subtotal is 5.6049999999999995 and the stored total 5.6. *)
Lemma checkout_subtotal_of_stored_items_witness :
  Forall (text_agrees sample_runtime)
    (CheckoutPayload.items (sample_payload three_line_cart "cod"))
  ∧ checkout sample_runtime (sample_payload three_line_cart "cod")
      (Some sample_db)
    = (inr three_line_response, Some (sample_db_with three_line_order))
  ∧ Order.subtotal three_line_order = 5.6049999999999995%float
  ∧ Order.total three_line_order = 5.6%float
  ∧ ∃ order,
      last_document (Some (sample_db_with three_line_order)) "order"
      = Some {| _id := CheckoutResponse.order_id three_line_response;
                body := OrderDoc order |}
      ∧ (let products :=
           (λ c, (CartItem.price c * Float.of_Z (CartItem.quantity c))%float)
           <$> Order.items order in
         Order.subtotal order
         = if compensated_sum sample_runtime
           then compensated_result
                  (fold_left compensated_step (tail products)
                     ((0 + hd 0 products)%float, 0%float))
           else fold_left PrimFloat.add products 0%float)
      ∧ rounded_to 2 (Order.subtotal order + 0) (Order.total order).
Proof.
  assert (Htext : Forall (text_agrees sample_runtime)
                    (CheckoutPayload.items
                       (sample_payload three_line_cart "cod")))
    by (repeat constructor; intros s x H; discriminate H).
  assert (Hcheckout :
            checkout sample_runtime (sample_payload three_line_cart "cod")
              (Some sample_db)
            = (inr three_line_response, Some (sample_db_with three_line_order)))
    by (vm_compute; reflexivity).
  split; [exact Htext|]. split; [exact Hcheckout|].
  split; [reflexivity|]. split; [reflexivity|].
  exact (checkout_subtotal_of_stored_items sample_runtime _ _ _ _ Htext
           Hcheckout).
Defined.

(** [checkout_unknown_payment_method] on a payment by ["paypal"]. *)
Lemma checkout_unknown_payment_method_witness :
  CheckoutPayload.payment_method (sample_payload sample_cart "paypal")
  ≠ "stripe"
  ∧ CheckoutPayload.payment_method (sample_payload sample_cart "paypal")
    ≠ "cod"
  ∧ ∃ e, checkout sample_runtime (sample_payload sample_cart "paypal")
           (Some sample_db)
         = (inl e, Some sample_db)
         ∧ checkout_error e.
Proof.
  assert (Hs : CheckoutPayload.payment_method
                 (sample_payload sample_cart "paypal") ≠ "stripe")
    by discriminate.
  assert (Hc : CheckoutPayload.payment_method
                 (sample_payload sample_cart "paypal") ≠ "cod")
    by discriminate.
  exact (conj Hs (conj Hc
           (checkout_unknown_payment_method sample_runtime
              (sample_payload sample_cart "paypal") (Some sample_db) Hs Hc))).
Defined.

(** [checkout_incomplete_address] on an address without a city. *)
Lemma checkout_incomplete_address_witness :
  "city" ∈ address_required
  ∧ dict_get
      (CheckoutPayload.shipping_address
         (CheckoutPayload.mk sample_cart None incomplete_address "cod"))
      "city" = None
  ∧ ∃ e, checkout sample_runtime
           (CheckoutPayload.mk sample_cart None incomplete_address "cod")
           (Some sample_db)
         = (inl e, Some sample_db)
         ∧ checkout_error e.
Proof.
  assert (Hkey : "city" ∈ address_required) by (right; right; left).
  exact (conj Hkey (conj eq_refl
           (checkout_incomplete_address sample_runtime
              (CheckoutPayload.mk sample_cart None incomplete_address "cod")
              (Some sample_db) "city" Hkey eq_refl))).
Defined.

Lemma list_products_catalog :
  list_products sample_runtime None None None None None None (Some catalog_db)
  = inr [to_public catalog_product].
Proof. reflexivity. Qed.

(** [list_products_answer] on the store that holds one product. *)
Lemma list_products_answer_witness :
  list_products sample_runtime None None None None None None (Some catalog_db)
  = inr [to_public catalog_product]
  ∧ ∃ found,
      [to_public catalog_product] = to_public <$> found
      ∧ (length [to_public catalog_product] ≤ 60)%nat
      ∧ found `sublist_of` collection catalog_db "product"
      ∧ Forall (λ doc, matches sample_runtime
                         (products_query None None None None None None) doc
                       = true) found.
Proof.
  exact (conj list_products_catalog
           (list_products_answer sample_runtime None None None None None None
              catalog_db _ list_products_catalog)).
Defined.

(** [admin_create_product_unset_list] on a payload without variants. *)
Lemma admin_create_product_unset_list_witness :
  (ProductIn.images unset_variants_product_in = None
   ∨ ProductIn.variants unset_variants_product_in = None
   ∨ ProductIn.tags unset_variants_product_in = None)
  ∧ admin_create_product sample_runtime unset_variants_product_in
      (Some sample_db)
    = (inl ValidationError, Some sample_db).
Proof.
  assert (Hunset : ProductIn.images unset_variants_product_in = None
                   ∨ ProductIn.variants unset_variants_product_in = None
                   ∨ ProductIn.tags unset_variants_product_in = None)
    by (right; left; reflexivity).
  exact (conj Hunset
           (admin_create_product_unset_list sample_runtime
              unset_variants_product_in (Some sample_db) Hunset)).
Defined.

(** [admin_create_product_bad_price] on a price of -1. *)
Lemma admin_create_product_bad_price_witness :
  (0 <=? ProductIn.price negative_price_product_in)%float = false
  ∧ admin_create_product sample_runtime negative_price_product_in
      (Some sample_db)
    = (inl ValidationError, Some sample_db).
Proof.
  exact (conj eq_refl
           (admin_create_product_bad_price sample_runtime
              negative_price_product_in (Some sample_db) eq_refl)).
Defined.

Lemma admin_create_sample_product :
  admin_create_product sample_runtime sample_product_in (Some sample_db)
  = (inr {[ "id" := sample_order_id ]}, Some sample_created_db).
Proof. vm_compute. reflexivity. Qed.


Lemma admin_delete_absent_product :
  admin_delete_product sample_runtime well_formed_id (Some catalog_db)
  = (inl (HTTPException 404 "Not found"), Some catalog_db).
Proof. reflexivity. Qed.

(** [admin_delete_product_failure] on an identifier that no product has. *)
Lemma admin_delete_product_failure_witness :
  admin_delete_product sample_runtime well_formed_id (Some catalog_db)
  = (inl (HTTPException 404 "Not found"), Some catalog_db)
  ∧ Some catalog_db = Some catalog_db
  ∧ (Some catalog_db = None
     ∧ HTTPException 404 "Not found" = HTTPException 500 "DB not ready"
     ∨ is_Some (Some catalog_db)
       ∧ HTTPException 404 "Not found" = HTTPException 400 "Invalid id"
     ∨ is_Some (Some catalog_db)
       ∧ HTTPException 404 "Not found" = HTTPException 404 "Not found"
       ∧ ∃ oid, ObjectId_of_str sample_runtime well_formed_id = Some oid
                ∧ ∀ doc, doc ∈ stored (Some catalog_db) "product" →
                         _id doc ≠ oid).
Proof.
  exact (conj admin_delete_absent_product
           (admin_delete_product_failure sample_runtime _ _ _ _
              admin_delete_absent_product)).
Defined.

Lemma admin_delete_catalog_product :
  admin_delete_product sample_runtime catalog_product_id (Some catalog_db)
  = (inr {[ "deleted" := true ]}, Some emptied_catalog_db).
Proof. reflexivity. Qed.

(** [admin_delete_product_removes_one] on the product of the store. *)
Lemma admin_delete_product_removes_one_witness :
  admin_delete_product sample_runtime catalog_product_id (Some catalog_db)
  = (inr {[ "deleted" := true ]}, Some emptied_catalog_db)
  ∧ ({[ "deleted" := true ]} : gmap string bool) = {[ "deleted" := true ]}
  ∧ ∃ oid doc,
      ObjectId_of_str sample_runtime catalog_product_id = Some oid
      ∧ doc ∈ stored (Some catalog_db) "product" ∧ _id doc = oid
      ∧ stored (Some emptied_catalog_db) "product"
        = remove_first oid (stored (Some catalog_db) "product")
      ∧ S (length (stored (Some emptied_catalog_db) "product"))
        = length (stored (Some catalog_db) "product")
      ∧ (∀ name, name ≠ "product" →
           stored (Some emptied_catalog_db) name
           = stored (Some catalog_db) name)
      ∧ (∀ other oid',
           ObjectId_of_str sample_runtime other = Some oid' → oid' ≠ oid →
           get_product sample_runtime other (Some emptied_catalog_db)
           = get_product sample_runtime other (Some catalog_db)).
Proof.
  exact (conj admin_delete_catalog_product
           (admin_delete_product_removes_one sample_runtime _ _ _ _
              admin_delete_catalog_product)).
Defined.

Lemma catalog_db_distinct_ids : NoDup (_id <$> stored (Some catalog_db) "product").
Proof. apply (NoDup_singleton catalog_product_id). Qed.

(** [admin_delete_product_gone] on the product of the store. *)
Lemma admin_delete_product_gone_witness :
  NoDup (_id <$> stored (Some catalog_db) "product")
  ∧ admin_delete_product sample_runtime catalog_product_id (Some catalog_db)
    = (inr {[ "deleted" := true ]}, Some emptied_catalog_db)
  ∧ get_product sample_runtime catalog_product_id (Some emptied_catalog_db)
    = raise (HTTPException 404 "Not found")
  ∧ admin_delete_product sample_runtime catalog_product_id
      (Some emptied_catalog_db)
    = (raise (HTTPException 404 "Not found"), Some emptied_catalog_db).
Proof.
  exact (conj catalog_db_distinct_ids (conj admin_delete_catalog_product
           (admin_delete_product_gone sample_runtime _ _ _ _
              catalog_db_distinct_ids admin_delete_catalog_product))).
Defined.

(** [admin_create_then_delete] on the complete payload. *)
Lemma admin_create_then_delete_witness :
  admin_create_product sample_runtime sample_product_in (Some sample_db)
  = (inr {[ "id" := sample_order_id ]}, Some sample_created_db)
  ∧ ({[ "id" := sample_order_id ]} : gmap string string) !! "id"
    = Some sample_order_id
  ∧ ObjectId_of_str sample_runtime sample_order_id = Some sample_order_id
  ∧ (∀ doc, doc ∈ stored (Some sample_db) "product" →
            _id doc ≠ sample_order_id)
  ∧ ∃ db'',
      admin_delete_product sample_runtime sample_order_id
        (Some sample_created_db)
      = (inr {[ "deleted" := true ]}, db'')
      ∧ stored db'' "product" = stored (Some sample_db) "product".
Proof.
  assert (Hfresh : ∀ doc, doc ∈ stored (Some sample_db) "product" →
                          _id doc ≠ sample_order_id)
    by (intros doc Hdoc; by apply elem_of_nil in Hdoc).
  exact (conj admin_create_sample_product (conj eq_refl (conj eq_refl
           (conj Hfresh
              (admin_create_then_delete sample_runtime _ _ _ _
                 sample_order_id admin_create_sample_product eq_refl eq_refl
                 Hfresh))))).
Defined.

Lemma admin_update_absent_product :
  admin_update_product sample_runtime sample_set_fields well_formed_id
    negative_price_update (Some catalog_db)
  = (inl (HTTPException 404 "Not found"), Some catalog_db).
Proof. reflexivity. Qed.

(** [admin_update_product_failure] on an identifier that no product has. *)
Lemma admin_update_product_failure_witness :
  admin_update_product sample_runtime sample_set_fields well_formed_id
    negative_price_update (Some catalog_db)
  = (inl (HTTPException 404 "Not found"), Some catalog_db)
  ∧ Some catalog_db = Some catalog_db
  ∧ (Some catalog_db = None
     ∧ HTTPException 404 "Not found" = HTTPException 500 "DB not ready"
     ∨ is_Some (Some catalog_db)
       ∧ HTTPException 404 "Not found" = HTTPException 400 "Invalid id"
     ∨ is_Some (Some catalog_db)
       ∧ HTTPException 404 "Not found" = HTTPException 404 "Not found"
       ∧ ∃ oid, ObjectId_of_str sample_runtime well_formed_id = Some oid
                ∧ ∀ doc, doc ∈ stored (Some catalog_db) "product" →
                         _id doc ≠ oid).
Proof.
  exact (conj admin_update_absent_product
           (admin_update_product_failure sample_runtime sample_set_fields
              _ _ _ _ _ admin_update_absent_product)).
Defined.



(** The lookup after that update answers the negative price. *)
Lemma get_product_after_negative_price_update :
  get_product sample_runtime catalog_product_id (Some repriced_catalog_db)
  = inr {| id := catalog_product_id; public_body := repriced_body |}.
Proof. reflexivity. Qed.

(** The characters of a name are counted, not the bytes of its encoding. *)
Lemma py_len_samples :
  py_len "Ada" = 3%nat
  ∧ py_len "é" = 1%nat ∧ String.length "é" = 2%nat
  ∧ py_len accented_name = 41%nat ∧ String.length accented_name = 82%nat
  ∧ before_at "é@example.com" = "é".
Proof. repeat split. Qed.

Lemma signup_accented :
  signup sample_runtime accented_signup (Some sample_db)
  = (inr {[ "id" := sample_user_id; "email" := "zoe@example.com";
            "name" := accented_name; "role" := "user" ]},
     Some (sample_db_with_user accented_user)).
Proof. vm_compute. reflexivity. Qed.

(** A second signup under a registered address is refused and writes
    nothing. *)
Lemma signup_registered :
  signup sample_runtime accented_signup
    (Some (sample_db_with_user accented_user))
  = (inl (HTTPException 400 "Email already registered"),
     Some (sample_db_with_user accented_user)).
Proof. reflexivity. Qed.

(** Without a store the lookup is skipped and the write fails; with the
    handle of pymongo the truth test of the lookup raises. *)
Lemma signup_without_store :
  signup sample_runtime named_signup None = (inl StoreError, None)
  ∧ signup pymongo_runtime named_signup (Some sample_db)
    = (inl NotImplementedError, Some sample_db).
Proof. split; reflexivity. Qed.

(** [signup_stores_user] on a signup whose name has 41 characters and 82
    bytes. *)
Lemma signup_stores_user_witness :
  signup sample_runtime accented_signup (Some sample_db)
  = (inr {[ "id" := sample_user_id; "email" := "zoe@example.com";
            "name" := accented_name; "role" := "user" ]},
     Some (sample_db_with_user accented_user))
  ∧ ∃ d d' user user_id,
      Some sample_db = Some d
      ∧ Some (sample_db_with_user accented_user) = Some d'
      ∧ (database_bool sample_runtime = inr false
         ∨ database_bool sample_runtime = inr true
           ∧ List.filter
               (matches sample_runtime
                  {[ "email" := QStr (AuthPayload.email accented_signup) ]})
               (collection d "user") = [])
      ∧ collection d' "user"
        = (collection d "user"
           ++ [{| _id := user_id; body := UserDoc user |}])%list
      ∧ ({[ "id" := sample_user_id; "email" := "zoe@example.com";
            "name" := accented_name; "role" := "user" ]} : gmap string string)
        = {[ "id" := user_id; "email" := User.email user;
             "name" := User.name user; "role" := "user" ]}
      ∧ User.name user
        = match AuthPayload.name accented_signup with
          | Some (String c name) => String c name
          | _ => before_at (AuthPayload.email accented_signup)
          end
      ∧ (2 ≤ py_len (User.name user) ≤ 80)%nat
      ∧ validate_email sample_runtime (AuthPayload.email accented_signup)
        = Some (User.email user)
      ∧ User.password_hash user = AuthPayload.password accented_signup
      ∧ User.role user = Role.user
      ∧ User.avatar_url user = None
      ∧ User.is_active user = true.
Proof.
  assert (Hsignup :
            signup sample_runtime accented_signup (Some sample_db)
            = (inr {[ "id" := sample_user_id; "email" := "zoe@example.com";
                      "name" := accented_name; "role" := "user" ]},
               Some (sample_db_with_user accented_user)))
    by (vm_compute; reflexivity).
  exact (conj Hsignup (signup_stores_user sample_runtime _ _ _ _ Hsignup)).
Defined.

(** [signup_short_local_part] on the address ["é@example.com"]. *)
Lemma signup_short_local_part_witness :
  truthy (AuthPayload.name short_signup) = None
  ∧ (py_len (before_at (AuthPayload.email short_signup)) < 2)%nat
  ∧ signup sample_runtime short_signup (Some sample_db)
    = (inl ValidationError, Some sample_db)
  ∧ ∃ e, signup sample_runtime short_signup (Some sample_db)
         = (inl e, Some sample_db)
         ∧ match existing_users sample_runtime short_signup (Some sample_db)
           with
           | inl e' => e = e'
           | inr [] => e = ValidationError
           | inr (_ :: _) => e = HTTPException 400 "Email already registered"
           end.
Proof.
  assert (Hshort : (py_len (before_at (AuthPayload.email short_signup)) < 2)
                     %nat)
    by (vm_compute; lia).
  exact (conj eq_refl (conj Hshort (conj eq_refl
           (signup_short_local_part sample_runtime short_signup
              (Some sample_db) eq_refl Hshort)))).
Defined.
